(** * Happy Crash Detective: the debugger invoker and the crash-report summarizer

    A shallow embedding of [script.py]: the constant [FRIENDLY_SIGNALS], the
    methods [run_gdb], [attach_gdb] and [parse_gdb_output] of the class
    [HappyCrashDetective], and the part of Python's [str] and [re] that they
    call; then the methods that talk to the user, [interactive_debug],
    [debug_binary] and [attach_process], the function [main], and the guard
    that runs it.  Python text is a sequence of Unicode code points,
    exceptions are values of an outcome type, and the two regular expressions
    of the source are run by a backtracking matcher that explores alternatives
    in the order Python's engine does.  What is shown on the terminal is kept
    as a list of events, and the answers of the user as a list of lines.  What
    the interpreter and the machine decide and the repository does not (the
    Unicode tables of digits, the limit on integer conversion, the outcome of
    running the debugger, of looking up a path and of probing a process) is a
    parameter. *)

From Stdlib Require Import String Ascii NArith ZArith List Bool Arith Lia.
From Stdlib Require Import DecimalString.
Import ListNotations.

Set Implicit Arguments.
Set Warnings "-comment-terminator-in-string".

(** ** Text: code points and string literals *)

Module Text.

(** A Python [str] is a sequence of code points. *)
Definition char : Type := N.
Definition str : Type := list char.

(** String literals of the source are written as Rocq strings, which hold the
    UTF-8 bytes of the file; [utf8] turns the bytes back into code points. *)
Fixpoint utf8 (bs : list N) : str :=
  match bs with
  | [] => []
  | b0 :: r0 =>
      if (b0 <? 128)%N then b0 :: utf8 r0
      else if (b0 <? 224)%N then
        match r0 with
        | b1 :: r1 => ((b0 - 192) * 64 + (b1 - 128))%N :: utf8 r1
        | _ => []
        end
      else if (b0 <? 240)%N then
        match r0 with
        | b1 :: b2 :: r2 =>
            ((b0 - 224) * 4096 + (b1 - 128) * 64 + (b2 - 128))%N :: utf8 r2
        | _ => []
        end
      else
        match r0 with
        | b1 :: b2 :: b3 :: r3 =>
            ((b0 - 240) * 262144 + (b1 - 128) * 4096 + (b2 - 128) * 64
             + (b3 - 128))%N :: utf8 r3
        | _ => []
        end
  end.

Definition py (s : string) : str :=
  utf8 (map N_of_ascii (list_ascii_of_string s)).

(** [str(n)] and the [{n}] of an f-string, for a non-negative integer. *)
Definition str_of_int (n : N) : str :=
  py (NilZero.string_of_uint (N.to_uint n)).

(** [not s]: among strings and lists, the empty one is the only falsy one. *)
Definition is_empty (A : Type) (s : list A) : bool :=
  match s with [] => true | _ :: _ => false end.

(** [a == b] *)
Fixpoint str_eqb (a b : str) : bool :=
  match a, b with
  | [], [] => true
  | x :: a', y :: b' => (x =? y)%N && str_eqb a' b'
  | _, _ => false
  end.

(** [s.startswith(prefix)] *)
Fixpoint startswith (s prefix : str) {struct prefix} : bool :=
  match prefix with
  | [] => true
  | p :: prefix' =>
      match s with
      | [] => false
      | c :: s' => (c =? p)%N && startswith s' prefix'
      end
  end.

(** [sub in s] *)
Fixpoint contains (sub s : str) : bool :=
  match s with
  | [] => startswith [] sub
  | _ :: s' => startswith s sub || contains sub s'
  end.

(** The text left after a literal prefix, when [s] starts with it. *)
Fixpoint drop_prefix (prefix s : str) : option str :=
  match prefix with
  | [] => Some s
  | p :: prefix' =>
      match s with
      | [] => None
      | c :: s' => if (c =? p)%N then drop_prefix prefix' s' else None
      end
  end.

(** Python's whitespace ([str.isspace], the class [\s] of [re] on [str]
    patterns, and what [str.strip()] removes): the ASCII controls 9 to 13 and
    28 to 31, the space, and the Unicode separators beyond ASCII. *)
Definition is_space (c : char) : bool :=
  ((9 <=? c) && (c <=? 13) || (28 <=? c) && (c <=? 32)
   || (c =? 133) || (c =? 160) || (c =? 5760)
   || (8192 <=? c) && (c <=? 8202)
   || (c =? 8232) || (c =? 8233) || (c =? 8239) || (c =? 8287)
   || (c =? 12288))%N.

Fixpoint lstrip (s : str) : str :=
  match s with
  | [] => []
  | c :: s' => if is_space c then lstrip s' else s
  end.

Definition rstrip (s : str) : str := rev (lstrip (rev s)).

(** [s.strip()] *)
Definition strip (s : str) : str := rstrip (lstrip s).

End Text.

Import Text.

Arguments py : simpl never.
Arguments str_of_int : simpl never.

(** ** Exceptions *)

Module Exc.

(** The exception classes that the modelled code can meet, with Python's
    class hierarchy: [base c] is the direct base class of [c].  [OtherError]
    stands for any further class of errors, named, under [Exception]. *)
Inductive exc_class : Type :=
| BaseException
| Exception
| KeyboardInterrupt
| SystemExit
| LookupError
| IndexError
| ValueError
| UnicodeError
| UnicodeDecodeError
| OSError
| FileNotFoundError
| PermissionError
| SubprocessError
| TimeoutExpired
| OtherError (name : str).

Definition base (c : exc_class) : option exc_class :=
  match c with
  | BaseException => None
  | Exception | KeyboardInterrupt | SystemExit => Some BaseException
  | LookupError | ValueError | OSError | SubprocessError | OtherError _ =>
      Some Exception
  | IndexError => Some LookupError
  | UnicodeError => Some ValueError
  | UnicodeDecodeError => Some UnicodeError
  | FileNotFoundError | PermissionError => Some OSError
  | TimeoutExpired => Some SubprocessError
  end.

Definition exc_class_eqb (a b : exc_class) : bool :=
  match a, b with
  | BaseException, BaseException | Exception, Exception
  | KeyboardInterrupt, KeyboardInterrupt | SystemExit, SystemExit
  | LookupError, LookupError | IndexError, IndexError
  | ValueError, ValueError | UnicodeError, UnicodeError
  | UnicodeDecodeError, UnicodeDecodeError
  | OSError, OSError | FileNotFoundError, FileNotFoundError
  | PermissionError, PermissionError | SubprocessError, SubprocessError
  | TimeoutExpired, TimeoutExpired => true
  | OtherError a, OtherError b => str_eqb a b
  | _, _ => false
  end.

(** [issubclass(c, d)]: [d] is reached from [c] along [base]; the hierarchy
    above is four classes deep. *)
Fixpoint issubclass_upto (depth : nat) (c d : exc_class) : bool :=
  exc_class_eqb c d ||
  match depth with
  | O => false
  | S depth' =>
      match base c with
      | Some b => issubclass_upto depth' b d
      | None => false
      end
  end.

Definition issubclass : exc_class -> exc_class -> bool := issubclass_upto 4.

(** A raised exception: its class and its [str(e)]. *)
Record exception : Type := mk_exception {
  exc_type : exc_class;
  exc_str : str
}.

Definition isinstance (e : exception) (c : exc_class) : bool :=
  issubclass (exc_type e) c.

(** What evaluating a piece of Python gives: a value, or a raised exception. *)
Inductive outcome (A : Type) : Type :=
| Return (a : A)
| Raise (e : exception).

Arguments Return {A} a.
Arguments Raise {A} e.

Definition bind {A B : Type} (c : outcome A) (k : A -> outcome B) : outcome B :=
  match c with
  | Return a => k a
  | Raise e => Raise e
  end.

(** [try: body  except c1: h1  except c2: h2 ...]: the first clause whose class
    the raised exception is an instance of handles it; with none, it goes on
    propagating. *)
Fixpoint handle {A : Type} (clauses : list (exc_class * (exception -> outcome A)))
  (e : exception) : outcome A :=
  match clauses with
  | [] => Raise e
  | (c, h) :: rest => if isinstance e c then h e else handle rest e
  end.

Definition try_except {A : Type} (body : outcome A)
  (clauses : list (exc_class * (exception -> outcome A))) : outcome A :=
  match body with
  | Return a => Return a
  | Raise e => handle clauses e
  end.

End Exc.

Import Exc.

Declare Scope py_scope.
Delimit Scope py_scope with py.
Notation "x <- c ;; k" := (bind c (fun x => k))
  (at level 61, c at next level, right associativity) : py_scope.

(** [l[i]] for a Python list and a possibly negative index: a negative index
    counts from the end, an index out of range raises [IndexError]. *)
Definition getitem {A : Type} (l : list A) (i : Z) : outcome A :=
  let n := Z.of_nat (length l) in
  let j := (if i <? 0 then i + n else i)%Z in
  if ((0 <=? j) && (j <? n))%Z then
    match nth_error l (Z.to_nat j) with
    | Some a => Return a
    | None => Raise (mk_exception IndexError (py "list index out of range"))
    end
  else Raise (mk_exception IndexError (py "list index out of range")).

(** ** Regular expressions

    The fragment of [re] that the two patterns of the source are written in:
    literals, one character of a class, a class repeated greedily or lazily,
    an optional part, capturing groups, and sequencing.  [exec] matches at the
    start of the text and explores alternatives in the order of Python's
    backtracking engine: a greedy repetition tries the longest run first, a
    lazy one the shortest, an optional part is tried before being skipped; the
    first alternative under which the rest of the pattern matches wins. *)

Module Regex.

Inductive regex : Type :=
| Lit (l : str)
| One (cls : char -> bool)
| Star (greedy : bool) (cls : char -> bool)
| Opt (r : regex)
| Group (i : nat) (r : regex)
| Seq (r1 r2 : regex).

(** [cls+] and [cls+?] *)
Definition Plus (greedy : bool) (cls : char -> bool) : regex :=
  Seq (One cls) (Star greedy cls).

(** The text captured by each group that took part in the match. *)
Definition groups : Type := list (nat * str).

Definition set_group (i : nat) (v : str) (g : groups) : groups := (i, v) :: g.

(** [m.group(i)] as [findall] reports it: the empty string for a group that
    took no part in the match. *)
Fixpoint group (i : nat) (g : groups) : str :=
  match g with
  | [] => []
  | (j, v) :: g' => if Nat.eqb i j then v else group i g'
  end.

(** The part of [s] in front of its suffix [s']. *)
Definition consumed (s s' : str) : str := firstn (length s - length s') s.

Section Exec.
Variable R : Type.

Fixpoint star (greedy : bool) (cls : char -> bool) (s : str)
  (k : str -> option R) : option R :=
  match s with
  | [] => k []
  | c :: s' =>
      if cls c then
        if greedy then
          match star greedy cls s' k with
          | Some x => Some x
          | None => k s
          end
        else
          match k s with
          | Some x => Some x
          | None => star greedy cls s' k
          end
      else k s
  end.

Fixpoint exec (r : regex) (s : str) (g : groups)
  (k : str -> groups -> option R) : option R :=
  match r with
  | Lit l =>
      match drop_prefix l s with
      | Some s' => k s' g
      | None => None
      end
  | One cls =>
      match s with
      | c :: s' => if cls c then k s' g else None
      | [] => None
      end
  | Star greedy cls => star greedy cls s (fun s' => k s' g)
  | Opt r1 =>
      match exec r1 s g k with
      | Some x => Some x
      | None => k s g
      end
  | Group i r1 => exec r1 s g (fun s' g' => k s' (set_group i (consumed s s') g'))
  | Seq r1 r2 => exec r1 s g (fun s' g' => exec r2 s' g' k)
  end.

End Exec.

(** [re.match]: the groups of the match at the start of [s], and the text
    after the match. *)
Definition match_at (r : regex) (s : str) : option (groups * str) :=
  exec r s [] (fun s' g => Some (g, s')).

(** [re.search]: the leftmost match. *)
Fixpoint search (r : regex) (s : str) : option groups :=
  match match_at r s with
  | Some (g, _) => Some g
  | None =>
      match s with
      | [] => None
      | _ :: s' => search r s'
      end
  end.

(** [re.findall] for a pattern that matches no empty text: the matches met
    scanning left to right, each search starting where the previous match
    ended.  [skip] counts the characters of the last match still to pass. *)
Fixpoint scan (r : regex) (s : str) (skip : nat) : list groups :=
  match s with
  | [] => []
  | _ :: s' =>
      match skip with
      | S n => scan r s' n
      | O =>
          match match_at r s with
          | Some (g, rest) => g :: scan r s' (length s - length rest - 1)
          | None => scan r s' 0
          end
      end
  end.

Definition findall (r : regex) (s : str) : list groups := scan r s 0.

End Regex.

Import Regex.

(** ** The summarizer's data *)

Definition NL : str := [10%N].
Arguments NL : simpl never.

(** [FRIENDLY_SIGNALS]: a dict literal, kept as the list of its items in
    insertion order, which is the order [.items()] iterates in. *)
Definition FRIENDLY_SIGNALS : list (str * str) :=
  [ (py "SIGSEGV", py "🛑 Segmentation fault (tried to access memory that doesn't belong to you)");
    (py "SIGABRT", py "💥 Abort signal (program decided to quit unexpectedly)");
    (py "SIGFPE", py "➗ Math error (division by zero or floating point issue)");
    (py "SIGILL", py "⚡ Illegal instruction (CPU didn't understand your code)");
    (py "SIGBUS", py "🚌 Bus error (misaligned memory access)");
    (py "SIGTRAP", py "🔍 Trace/breakpoint trap (debugger is watching)");
    (py "SIGSYS", py "📞 Bad system call (wrong number to the system)") ].

(** [d.get(key, default)] *)
Fixpoint dict_get (d : list (str * str)) (key default : str) : str :=
  match d with
  | [] => default
  | (k, v) :: d' => if str_eqb k key then v else dict_get d' key default
  end.

(** The loop of lines 98 to 102: the first key of the dict, in iteration
    order, that is a substring of the output; [None] when the loop ends
    without a [break]. *)
Fixpoint detect_signal (items : list (str * str)) (output : str) : option str :=
  match items with
  | [] => None
  | (sig, desc) :: rest =>
      if contains sig output then Some sig else detect_signal rest output
  end.

(** A frame as [re.findall] returns it, one string per group of the pattern:
    [(frame_num, addr, func, params, file, line)]. *)
Definition frame : Type := (str * str * str * str * str * str)%type.

(** An entry of [user_frames] or [library_frames]:
    [(frame_num, full_func, file, line)]. *)
Definition entry : Type := (str * str * str * str)%type.

Definition entry_num (e : entry) : str := let '(n, _, _, _) := e in n.
Definition entry_func (e : entry) : str := let '(_, f, _, _) := e in f.
Definition entry_file (e : entry) : str := let '(_, _, f, _) := e in f.
Definition entry_line (e : entry) : str := let '(_, _, _, l) := e in l.

Definition tuple6 (g : groups) : frame :=
  (group 1 g, group 2 g, group 3 g, group 4 g, group 5 g, group 6 g).

(** The test of lines 125 to 133 on the raw function name and the path. *)
Definition is_library (func file : str) : bool :=
  existsb (fun b : bool => b)
    [ startswith file (py "/usr"); startswith file (py "/lib");
      contains (py "sysdeps") file; contains (py "malloc") file;
      contains (py ".so") file;
      contains (py "libc") file; contains (py "libstdc++") file;
      contains (py "libpthread") file;
      contains (py "ld-linux") file; contains (py "csu") file;
      contains (py "vg_preload") file;
      contains (py "linux-gnu") file; startswith func (py "__GI_");
      startswith func (py "__libc_"); startswith func (py "std::");
      startswith func (py "operator") ].

(** One turn of the loop of lines 121 to 138, on the two lists it appends to. *)
Definition classify_step (acc : list entry * list entry) (fr : frame)
  : list entry * list entry :=
  let '(user_frames, library_frames) := acc in
  let '(frame_num, addr, func, params, file, line) := fr in
  let full_func := strip func ++ (if negb (is_empty params) then params else []) in
  if is_library func file
  then (user_frames, library_frames ++ [(frame_num, full_func, file, line)])
  else (user_frames ++ [(frame_num, full_func, file, line)], library_frames).

Definition classify (frames : list frame) : list entry * list entry :=
  fold_left classify_step frames ([], []).

(** [for i in range(n): result = body(i, result)] *)
Fixpoint for_range (indices : list nat) (body : nat -> str -> outcome str)
  (result : str) : outcome str :=
  match indices with
  | [] => Return result
  | i :: rest => bind (body i result) (for_range rest body)
  end.

(** The loop of lines 167 to 170: the first library frame whose function text
    holds none of the three terms adds its line, and the loop stops. *)
Fixpoint library_hint (library_frames : list entry) (result : str) : str :=
  match library_frames with
  | [] => result
  | (frame_num, func, file, line) :: rest =>
      if negb (existsb (fun lib_term => contains lib_term func)
                 [py "std::"; py "__GI_"; py "__libc_"])
      then result ++ py "🔍 **Look at this code:** " ++ func ++ py " at " ++ file
                  ++ py ":" ++ line ++ NL
      else library_hint rest result
  end.

(** Lines 175 to 182. *)
Definition quick_tips : str :=
  NL ++ py "✨ **Quick tips:**" ++ NL
  ++ py "   • Check for null pointers" ++ NL
  ++ py "   • Verify array bounds" ++ NL
  ++ py "   • Ensure memory is properly allocated" ++ NL
  ++ py "   • Validate function inputs" ++ NL
  ++ py "   • Avoid double frees or invalid frees" ++ NL
  ++ py "   • Use tools like Valgrind for memory issues" ++ NL
  ++ py "   • Don't hesitate to ask for help! 🆘" ++ NL.

Definition no_output_message : str :=
  py "🤔 Hmm, no output to analyze. That's strange!".
Definition success_message : str :=
  py "🎉 Success! Program finished perfectly with code 0!".
Definition error_exit_message (code : N) : str :=
  py "⚠️  Program exited with error code " ++ str_of_int code
  ++ py " (not a crash, but something went wrong)".
Definition no_crash_message : str :=
  py "✅ No crash detected! Program finished normally.".

(** Line 140. *)
Definition header (sig : str) : str :=
  NL ++ py "🔍 " ++ dict_get FRIENDLY_SIGNALS sig (py "Unknown error happened!")
  ++ NL ++ NL.

(** Lines 144 to 147. *)
Definition problem_block (func file line : str) : str :=
  py "🎯 **The problem is likely here:**" ++ NL
  ++ py "   📁 File: " ++ file ++ NL
  ++ py "   📄 Line: " ++ line ++ NL
  ++ py "   🔧 Function: " ++ func ++ NL ++ NL.

(** Lines 161 to 165. *)
Definition library_block : str :=
  py "🤔 **The crash happened in a system library**" ++ NL
  ++ py "💡 **This usually means:**" ++ NL
  ++ py "   • You passed invalid data to a system function" ++ NL
  ++ py "   • Memory was corrupted before the system call" ++ NL
  ++ py "   • You're using a library function incorrectly" ++ NL ++ NL.

(** Lines 172 and 173. *)
Definition no_frames_block : str :=
  py "🤷 **Couldn't find detailed crash information**" ++ NL
  ++ py "💡 **Try this:** Compile with -g flag: g++ -g your_code.cpp" ++ NL.

(** Lines 150 to 154, on the [result] built so far. *)
Definition call_chain (user_frames : list entry) (result : str) : outcome str :=
  (if 1 <? length user_frames then
     started <- getitem user_frames (-1) ;;
     let result := result ++ py "   1. " ++ entry_func started
                          ++ py " (started here)" ++ NL in
     result <- for_range (seq 0 (Nat.min 3 (length user_frames - 1)))
                 (fun i result =>
                    fr <- getitem user_frames (- (Z.of_nat i + 2)) ;;
                    Return (result ++ py "   " ++ str_of_int (N.of_nat (i + 2))
                                   ++ py ". " ++ entry_func fr ++ NL))
                 result ;;
     crashed <- getitem user_frames 0 ;;
     Return (result ++ py "   → " ++ entry_func crashed ++ py " (crashed here)" ++ NL)
   else Return result)%py.

(** Lines 156 to 158. *)
Definition system_hint (library_frames : list entry) (result : str) : outcome str :=
  (if negb (is_empty library_frames) then
     fr <- getitem library_frames 0 ;;
     Return (result ++ NL
             ++ py "💡 **Hint:** Your code called a system function that caused the crash."
             ++ NL ++ py "   The system was trying to: " ++ entry_func fr ++ NL)
   else Return result)%py.

(** ** The summarizer *)

(** What the summarizer takes from the interpreter that runs it, and that
    the repository does not fix: the decimal digits beyond ASCII (Unicode
    category Nd) with their values, consulted above U+007F only, and the limit
    on the number of digits that [int] converts ([sys.get_int_max_str_digits()],
    4300 by default since Python 3.11; 0 stands for no limit, as in the
    versions before). *)
Record interpreter : Type := mk_interpreter {
  unicode_decimal : char -> option N;
  int_max_str_digits : N
}.

Section Summarizer.

Variable interp : interpreter.

Definition decimal_value (c : char) : option N :=
  if (c <? 128)%N then
    if ((48 <=? c) && (c <=? 57))%N then Some (c - 48)%N else None
  else unicode_decimal interp c.

(** The class [\d] of a [str] pattern. *)
Definition is_digit (c : char) : bool :=
  match decimal_value c with Some _ => true | None => false end.

(** [[0-9a-fA-F]] *)
Definition is_hex (c : char) : bool :=
  ((48 <=? c) && (c <=? 57) || (97 <=? c) && (c <=? 102)
   || (65 <=? c) && (c <=? 70))%N.

(** [[^(]], [[^)]] and [.] (any character but the line feed). *)
Definition not_lparen (c : char) : bool := negb (c =? 40)%N.
Definition not_rparen (c : char) : bool := negb (c =? 41)%N.
Definition dot (c : char) : bool := negb (c =? 10)%N.

(** [int(s)] on a run of decimal digits, which is all that the source passes
    to it; the model answers any other text with [ValueError].  A run longer
    than the interpreter's limit is refused with [ValueError] as well. *)
Fixpoint int_digits (acc : N) (s : str) : outcome N :=
  match s with
  | [] => Return acc
  | c :: s' =>
      match decimal_value c with
      | Some d => int_digits (acc * 10 + d)%N s'
      | None => Raise (mk_exception ValueError (py "invalid literal for int() with base 10"))
      end
  end.

Definition int (s : str) : outcome N :=
  if is_empty s
  then Raise (mk_exception ValueError (py "invalid literal for int() with base 10"))
  else if ((0 <? int_max_str_digits interp)
           && (int_max_str_digits interp <? N.of_nat (length s)))%N
  then Raise (mk_exception ValueError
                (py "Exceeds the limit for integer string conversion"))
  else int_digits 0 s.

Fixpoint cat (rs : list regex) : regex :=
  match rs with
  | [] => Lit []
  | [r] => r
  | r :: rs' => Seq r (cat rs')
  end.

(** Line 106, the pattern ["exited with code (\d+)"]. *)
Definition exit_pattern : regex :=
  cat [ Lit (py "exited with code "); Group 1 (Plus true is_digit) ].

(** Line 115, the pattern
    ["#(\d+)\s+(0x[0-9a-fA-F]+)?\s+in\s+([^(]+)(\([^)]*\))?\s+\((?:[^)]*)\)\s+at\s+(.+?):(\d+)"]. *)
Definition frame_pattern : regex :=
  cat [ Lit (py "#"); Group 1 (Plus true is_digit);
        Plus true is_space;
        Opt (Group 2 (cat [ Lit (py "0x"); Plus true is_hex ]));
        Plus true is_space; Lit (py "in"); Plus true is_space;
        Group 3 (Plus true not_lparen);
        Opt (Group 4 (cat [ Lit (py "("); Star true not_rparen; Lit (py ")") ]));
        Plus true is_space;
        Lit (py "("); Star true not_rparen; Lit (py ")");
        Plus true is_space; Lit (py "at"); Plus true is_space;
        Group 5 (Plus false dot); Lit (py ":"); Group 6 (Plus true is_digit) ].

(** Lines 116 to 138: the frames found in the output, and the two lists the
    loop sorts them into. *)
Definition extract_frames (output : str) : list frame :=
  map tuple6 (findall frame_pattern output).

Definition user_frames_of (output : str) : list entry :=
  fst (classify (extract_frames output)).

Definition library_frames_of (output : str) : list entry :=
  snd (classify (extract_frames output)).

(** Lines 104 to 113: no signal was detected. *)
Definition report_exit (output : str) : outcome str :=
  (if contains (py "exited with code") output then
     match search exit_pattern output with
     | Some exit_code =>
         code <- int (group 1 exit_code) ;;
         if (code =? 0)%N then Return success_message
         else Return (error_exit_message code)
     | None => Return no_crash_message
     end
   else Return no_crash_message)%py.

(** Lines 115 to 184: the report on a detected signal. *)
Definition report_crash (signal_detected output : str) : outcome str :=
  (let frames := extract_frames output in
   let '(user_frames, library_frames) := classify frames in
   let result := header signal_detected in
   result <-
     (if negb (is_empty user_frames) then
        fr <- getitem user_frames 0 ;;
        let '(frame_num, func, file, line) := fr in
        let result := result ++ problem_block func file line in
        let result := result ++ py "📋 **What happened (simplified):**" ++ NL in
        result <- call_chain user_frames result ;;
        system_hint library_frames result
      else if negb (is_empty library_frames) then
        Return (library_hint library_frames (result ++ library_block))
      else Return (result ++ no_frames_block)) ;;
   Return (result ++ quick_tips))%py.

(** [parse_gdb_output(self, output)] *)
Definition parse_gdb_output (output : str) : outcome str :=
  if is_empty output then Return no_output_message
  else
    match detect_signal FRIENDLY_SIGNALS output with
    | None => report_exit output
    | Some signal_detected =>
        if is_empty signal_detected then report_exit output
        else report_crash signal_detected output
    end.

End Summarizer.

(** ** The debugger invoker *)

(** What [subprocess.run(..., capture_output=True, text=True)] returns. *)
Record completed_process : Type := mk_completed_process {
  stdout : str;
  stderr : str
}.

(** [str(pid)] for a process id. *)
Definition str_of_pid (pid : Z) : str :=
  py (NilZero.string_of_int (Z.to_int pid)).

Definition handle_signals : list str :=
  [ py "-ex"; py "handle SIGSEGV stop print nopass";
    py "-ex"; py "handle SIGABRT stop print nopass";
    py "-ex"; py "handle SIGFPE stop print nopass";
    py "-ex"; py "handle SIGILL stop print nopass";
    py "-ex"; py "handle SIGBUS stop print nopass" ].

Definition timed_out_message : str :=
  py "⏰ Time's up! Program took too long and was stopped.".
Definition not_installed_message : str :=
  py "❌ Oops! GDB is not installed. Please install it with: sudo apt install gdb".
Definition run_failed_message (e : exception) : str :=
  py "❌ Whoops! Failed to run GDB: " ++ exc_str e.
Definition attach_failed_message (e : exception) : str :=
  py "❌ Whoops! Failed to attach GDB: " ++ exc_str e.

(** The command line of launch mode, lines 32 to 45, and of attach mode,
    lines 65 to 78. *)
Definition launch_command (cmd : list str) : list str :=
  [ py "gdb"; py "--quiet"; py "--nx";
    py "-ex"; py "set pagination off";
    py "-ex"; py "set confirm off" ]
  ++ handle_signals
  ++ [ py "-ex"; py "run";
       py "-ex"; py "bt full";
       py "-ex"; py "quit";
       py "--args" ]
  ++ cmd.

Definition attach_command (pid : Z) : list str :=
  [ py "gdb"; py "--quiet"; py "--nx";
    py "-ex"; py "set pagination off";
    py "-ex"; py "set confirm off" ]
  ++ handle_signals
  ++ [ py "-ex"; py "attach " ++ str_of_pid pid;
       py "-ex"; py "continue";
       py "-ex"; py "bt full";
       py "-ex"; py "quit" ].

(** The canned answer given on standard input. *)
Definition canned_answer : str := py "y" ++ NL.

Section Invoker.

(** The world outside the program: [subprocess_run args timeout input] is what
    the call [subprocess.run(args, capture_output=True, text=True,
    timeout=timeout, input=input)] does, a completed process or an exception. *)
Variable subprocess_run : list str -> option N -> str -> outcome completed_process.

(** [run_gdb(self, cmd, timeout=None)] *)
Definition run_gdb (cmd : list str) (timeout : option N) : outcome str :=
  let gdb_cmd := launch_command cmd in
  try_except
    (bind (subprocess_run gdb_cmd timeout canned_answer)
       (fun result => Return (stdout result ++ stderr result)))
    [ (TimeoutExpired, fun _ => Return timed_out_message);
      (FileNotFoundError, fun _ => Return not_installed_message);
      (Exception, fun e => Return (run_failed_message e)) ].

(** [attach_gdb(self, pid)] *)
Definition attach_gdb (pid : Z) : outcome str :=
  let gdb_cmd := attach_command pid in
  try_except
    (bind (subprocess_run gdb_cmd None canned_answer)
       (fun result => Return (stdout result ++ stderr result)))
    [ (FileNotFoundError, fun _ => Return not_installed_message);
      (Exception, fun e => Return (attach_failed_message e)) ].

End Invoker.

(** ** The command line and the prompts

    [main], the guard of the script, and the three methods that talk to the
    user: [interactive_debug], [debug_binary] and [attach_process]. *)

(** What shows on the terminal: the texts of [print], each followed by a line
    feed, and the prompts of [input], which are not. *)
Inductive event : Type :=
| Printed (text : str)
| Prompted (text : str).

(** The state a run goes through: what it has shown, and how many times it
    has consulted the machine. *)
Record world : Type := mk_world {
  screen : list event;
  clock : nat
}.

(** The machine the program runs on, consulted at a time: [subprocess.run],
    [os.path.exists], [os.access(path, os.X_OK)] and [os.kill(pid, 0)]. *)
Record machine : Type := mk_machine {
  subprocess_run_at : nat -> list str -> option N -> str -> outcome completed_process;
  path_exists_at : nat -> str -> bool;
  access_at : nat -> str -> outcome bool;
  kill_at : nat -> Z -> outcome unit
}.

(** A piece of the program: from a state to the state it leaves and to its
    value or the exception it raised.  Writing to the terminal is taken not
    to fail. *)
Definition io (A : Type) : Type := world -> world * outcome A.

Definition io_return {A : Type} (a : A) : io A := fun w => (w, Return a).

Definition io_bind {A B : Type} (c : io A) (k : A -> io B) : io B :=
  fun w =>
    match c w with
    | (w', Return a) => k a w'
    | (w', Raise e) => (w', Raise e)
    end.

Definition lift {A : Type} (c : outcome A) : io A := fun w => (w, c).

Definition show (ev : event) (w : world) : world :=
  mk_world (screen w ++ [ev]) (clock w).

(** [print(text)] *)
Definition print (text : str) : io unit := fun w => (show (Printed text) w, Return tt).

(** A consultation of the machine, which moves the clock. *)
Definition consult {A : Type} (f : nat -> outcome A) : io A :=
  fun w => (mk_world (screen w) (S (clock w)), f (clock w)).

Fixpoint io_handle {A : Type} (clauses : list (exc_class * (exception -> io A)))
  (e : exception) : io A :=
  match clauses with
  | [] => lift (Raise e)
  | (c, h) :: rest => if isinstance e c then h e else io_handle rest e
  end.

(** [try: body  except c1: h1 ...] *)
Definition io_try {A : Type} (body : io A)
  (clauses : list (exc_class * (exception -> io A))) : io A :=
  fun w =>
    match body w with
    | (w', Return a) => (w', Return a)
    | (w', Raise e) => io_handle clauses e w'
    end.

Declare Scope io_scope.
Delimit Scope io_scope with io.
Notation "x <- c ;; k" := (io_bind c (fun x => k))
  (at level 61, c at next level, right associativity) : io_scope.
Notation "c ;; k" := (io_bind c (fun _ => k))
  (at level 61, right associativity) : io_scope.


Definition eof_error : exception :=
  mk_exception (OtherError (py "EOFError")) (py "EOF when reading a line").

(** [input(prompt)] when the terminal gives a line or raises, and at the end
    of the input, where it raises [EOFError] *)
Definition input (prompt : str) (answer : outcome str) : io str :=
  fun w => (show (Prompted prompt) w, answer).

Definition input_at_end {A : Type} (prompt : str) : io A :=
  fun w => (show (Prompted prompt) w, Raise eof_error).

(** [[0-9]], the digits of ASCII. *)
Definition ascii_digit (c : char) : bool := ((48 <=? c) && (c <=? 57))%N.

(** [sep.join(l)] *)
Fixpoint join (sep : str) (l : list str) : str :=
  match l with
  | [] => []
  | [s] => s
  | s :: l' => s ++ sep ++ join sep l'
  end.

(** [s.split()]: the words of [s] between runs of whitespace. *)
Fixpoint split_from (s word : str) : list str :=
  match s with
  | [] => if is_empty word then [] else [word]
  | c :: s' =>
      if is_space c
      then (if is_empty word then split_from s' [] else word :: split_from s' [])
      else split_from s' (word ++ [c])
  end.

Definition split (s : str) : list str := split_from s [].

(** [s.lower() == 'y']: "Y" is the one text besides "y" that Python's
    lowercase mapping takes to "y". *)
Definition lower_is_y (s : str) : bool := str_eqb s (py "y") || str_eqb s (py "Y").


(** The attribute lookup [debugger.monitor_long_running_process]: the class
    defines no method of that name, and the lookup raises [AttributeError]
    before anything is called. *)
Definition monitor_long_running_process {A : Type} (cmd : list str) : io A :=
  lift (Raise (mk_exception (OtherError (py "AttributeError"))
                 (py "'HappyCrashDetective' object has no attribute 'monitor_long_running_process'"))).

(** ["=" * 50] *)
Definition bar : str := repeat 61%N 50.


Definition path_prompt : str := NL ++ py "📂 Enter path to your program: ".
Definition arguments_prompt : str := py "🔧 Enter arguments (press Enter for none): ".
Definition long_running_prompt : str := py "⏰ Is this a long-running program? (y/N): ".
Definition pid_prompt : str := NL ++ py "🔗 Enter PID of the process: ".

Section CommandLine.

Variable interp : interpreter.

(** [str.isdigit] beyond ASCII: the characters that Unicode gives a digit
    value, superscripts and circled digits among them. *)
Variable unicode_isdigit : char -> bool.

Variable m : machine.


(** What [int] strips from both ends of a text: Python's whitespace but for
    the four separators 28 to 31. *)
Definition is_int_space (c : char) : bool :=
  is_space c && negb ((28 <=? c) && (c <=? 31))%N.

Fixpoint lstrip_int (s : str) : str :=
  match s with
  | [] => []
  | c :: s' => if is_int_space c then lstrip_int s' else s
  end.

(** [int(s)] on any text: blanks around, a sign, and digits that single
    underscores may separate; every other text raises [ValueError], and so do
    more digits than the interpreter's limit. *)
Definition int_of_text (s : str) : outcome Z :=
  let s := rev (lstrip_int (rev (lstrip_int s))) in
  let '(negative, body) :=
    match s with
    | 45%N :: body => (true, body)
    | 43%N :: body => (false, body)
    | _ => (false, s)
    end in
  if startswith body (py "_") || startswith (rev body) (py "_")
     || contains (py "__") body
  then Raise (mk_exception ValueError (py "invalid literal for int() with base 10"))
  else
    bind (int interp (filter (fun c => negb (c =? 95)%N) body))
      (fun n => Return (if negative then (- Z.of_N n)%Z else Z.of_N n)).

Definition run_gdb_on (cmd : list str) (timeout : option N) : io str :=
  consult (fun t => run_gdb (subprocess_run_at m t) cmd timeout).

Definition attach_gdb_on (pid : Z) : io str :=
  consult (fun t => attach_gdb (subprocess_run_at m t) pid).



(** The loop of lines 214 to 228, on the answers that the terminal still
    holds: the path it ends with, and the answers left. *)
Fixpoint ask_binary_path (stdin : list (outcome str))
  : io (str * list (outcome str)) :=
  match stdin with
  | [] => input_at_end path_prompt
  | answer :: stdin' =>
      (line <- input path_prompt answer ;;
       let binary_path := strip line in
       if is_empty binary_path then
         print (py "❌ Please provide a path") ;; ask_binary_path stdin'
       else
         found <- consult (fun t => Return (path_exists_at m t binary_path)) ;;
         if negb found then
           print (py "❌ File '" ++ binary_path ++ py "' doesn't exist") ;;
           ask_binary_path stdin'
         else
           executable <- consult (fun t => access_at m t binary_path) ;;
           if negb executable then
             print (py "❌ File '" ++ binary_path ++ py "' isn't executable") ;;
             ask_binary_path stdin'
           else io_return (binary_path, stdin'))%io
  end.

(** [input(prompt)] on the answers left. *)
Definition input_next (prompt : str) (stdin : list (outcome str))
  : io (str * list (outcome str)) :=
  match stdin with
  | [] => input_at_end prompt
  | answer :: stdin' => (line <- input prompt answer ;; io_return (line, stdin'))%io
  end.

(** [debug_binary(self)] *)
Definition debug_binary (stdin : list (outcome str)) : io unit :=
  (found <- ask_binary_path stdin ;;
   let '(binary_path, stdin) := found in
   answered <- input_next arguments_prompt stdin ;;
   let '(line, stdin) := answered in
   let args_input := strip line in
   let args := if negb (is_empty args_input) then split args_input else [] in
   answered <- input_next long_running_prompt stdin ;;
   let '(line, stdin) := answered in
   let is_long_running := lower_is_y (strip line) in
   if is_long_running then
     let cmd := [binary_path] ++ args in
     monitor_long_running_process cmd
   else
     let timeout := 30%N in
     let cmd := [binary_path] ++ args in
     print (NL ++ py "🚀 Running: " ++ join (py " ") cmd) ;;
     print (py "⏳ This might take a moment...") ;;
     output <- run_gdb_on cmd (Some timeout) ;;
     print (NL ++ bar) ;;
     report <- lift (parse_gdb_output interp output) ;;
     print report ;;
     print bar)%io.

(** The loop of lines 251 to 268: the process id it ends with. *)
Fixpoint ask_pid (stdin : list (outcome str)) : io Z :=
  match stdin with
  | [] => input_at_end pid_prompt
  | answer :: stdin' =>
      (turn <-
         io_try
           (line <- input pid_prompt answer ;;
            let pid_input := strip line in
            if is_empty pid_input then
              print (py "❌ Please provide a PID") ;; io_return None
            else
              pid <- lift (int_of_text pid_input) ;;
              io_try (consult (fun t => kill_at m t pid) ;; io_return (Some pid))
                [ (OSError, fun _ =>
                     print (py "❌ Process " ++ str_of_pid pid
                            ++ py " doesn't exist or no permission") ;;
                     io_return None) ])
           [ (ValueError, fun _ =>
                print (py "❌ Please enter a valid number") ;; io_return None) ] ;;
       match turn with
       | Some pid => io_return pid
       | None => ask_pid stdin'
       end)%io
  end.

(** [attach_process(self)] *)
Definition attach_process (stdin : list (outcome str)) : io unit :=
  (pid <- ask_pid stdin ;;
   print (NL ++ py "🔗 Attaching to process " ++ str_of_pid pid ++ py "...") ;;
   output <- attach_gdb_on pid ;;
   print (NL ++ bar) ;;
   report <- lift (parse_gdb_output interp output) ;;
   print report ;;
   print bar)%io.



End CommandLine.

(** ** Vocabulary of the statements *)

(** [s] starts with [p]; [sub] occurs in [s]. *)
Definition prefix_of (p s : str) : Prop := exists t, s = p ++ t.
Definition substring_of (sub s : str) : Prop := exists a b, s = a ++ sub ++ b.

(** [s.endswith(suffix)] *)
Definition endswith (s suffix : str) : bool := startswith (rev s) (rev suffix).

(** The first character of [s], if any, is outside the class. *)
Definition not_headed_by (cls : char -> bool) (s : str) : Prop :=
  match s with
  | [] => True
  | c :: _ => cls c = false
  end.

(** Every character of [s] is in the class. *)
Definition all_in (cls : char -> bool) (s : str) : Prop :=
  Forall (fun c => cls c = true) s.

(** [s] is a non-empty run of characters of the class. *)
Definition run_of (cls : char -> bool) (s : str) : Prop :=
  s <> [] /\ all_in cls s.

(** The longest prefix of [s] inside a class, and what follows it. *)
Fixpoint span (cls : char -> bool) (s : str) : str * str :=
  match s with
  | [] => ([], [])
  | c :: s' =>
      if cls c then let '(run, rest) := span cls s' in (c :: run, rest)
      else ([], s)
  end.

(** [matches r m g g']: the text [m] is in the language of [r], and matching
    it turns the captures [g] into [g'].  The relation says which texts a
    pattern can match, not which of them the engine prefers. *)
Inductive matches : regex -> str -> groups -> groups -> Prop :=
| matches_lit l g : matches (Lit l) l g g
| matches_one cls c g : cls c = true -> matches (One cls) [c] g g
| matches_star greedy cls m g : all_in cls m -> matches (Star greedy cls) m g g
| matches_opt_taken r m g g' : matches r m g g' -> matches (Opt r) m g g'
| matches_opt_skipped r g : matches (Opt r) [] g g
| matches_group i r m g g' :
    matches r m g g' -> matches (Group i r) m g (set_group i m g')
| matches_seq r1 r2 m1 m2 g g1 g2 :
    matches r1 m1 g g1 -> matches r2 m2 g1 g2 ->
    matches (Seq r1 r2) (m1 ++ m2) g g2.

(** The keys of [FRIENDLY_SIGNALS], in the order of the dict literal. *)
Definition signal_names : list str :=
  [ py "SIGSEGV"; py "SIGABRT"; py "SIGFPE"; py "SIGILL"; py "SIGBUS";
    py "SIGTRAP"; py "SIGSYS" ].

(** No signal name occurs in the text. *)
Definition signal_free (output : str) : Prop :=
  Forall (fun name => ~ substring_of name output) signal_names.

Definition frame_func (fr : frame) : str :=
  let '(_, _, func, _, _, _) := fr in func.
Definition frame_file (fr : frame) : str :=
  let '(_, _, _, _, file, _) := fr in file.

(** The bucket entry made from a frame, and the bucket it goes to. *)
Definition entry_of (fr : frame) : entry :=
  let '(frame_num, addr, func, params, file, line) := fr in
  (frame_num, strip func ++ params, file, line).

Definition frame_is_library (fr : frame) : bool :=
  is_library (frame_func fr) (frame_file fr).

(** The path fragments and the symbol prefixes that mark a library frame. *)
Definition library_roots : list str := [ py "/usr"; py "/lib" ].
Definition runtime_fragments : list str :=
  [ py "sysdeps"; py "malloc"; py "libc"; py "libstdc++"; py "libpthread";
    py "ld-linux"; py "csu"; py "vg_preload"; py "linux-gnu" ].
Definition shared_library_extension : str := py ".so".
Definition internal_prefixes : list str :=
  [ py "__GI_"; py "__libc_"; py "std::"; py "operator" ].

(** The rule the classifier applies: the path starts under a root, or holds a
    runtime fragment or the shared-library extension anywhere, or the function
    name starts with an internal prefix. *)
Definition library_rule (func file : str) : Prop :=
  Exists (fun root => prefix_of root file) library_roots
  \/ Exists (fun fragment => substring_of fragment file) runtime_fragments
  \/ substring_of shared_library_extension file
  \/ Exists (fun p => prefix_of p func) internal_prefixes.

(** The numbered steps of the call chain, for the frames walking inward. *)
Fixpoint chain_steps (number : nat) (inward : list entry) : str :=
  match inward with
  | [] => []
  | fr :: rest =>
      py "   " ++ str_of_int (N.of_nat number) ++ py ". " ++ entry_func fr ++ NL
      ++ chain_steps (S number) rest
  end.

(** The call chain of two or more user frames, innermost first in the list:
    the outermost frame as the start, up to three frames walking inward from
    it, and the innermost frame as the place of the crash. *)
Definition chain_text (user_frames : list entry) : str :=
  match user_frames with
  | innermost :: _ :: _ =>
      match rev user_frames with
      | outermost :: inward =>
          py "   1. " ++ entry_func outermost ++ py " (started here)" ++ NL
          ++ chain_steps 2 (firstn 3 inward)
          ++ py "   → " ++ entry_func innermost ++ py " (crashed here)" ++ NL
      | [] => []
      end
  | _ => []
  end.

(** The hint on the first library frame, when there is one. *)
Definition system_hint_text (library_frames : list entry) : str :=
  match library_frames with
  | [] => []
  | fr :: _ =>
      NL ++ py "💡 **Hint:** Your code called a system function that caused the crash."
      ++ NL ++ py "   The system was trying to: " ++ entry_func fr ++ NL
  end.

(** The function text holds one of the three internal terms. *)
Definition internal_terms : list str := [ py "std::"; py "__GI_"; py "__libc_" ].
Definition mentions_internal (func : str) : bool :=
  existsb (fun lib_term => contains lib_term func) internal_terms.

(** The one concrete hint of a report on library frames only. *)
Definition library_hint_text (library_frames : list entry) : str :=
  match find (fun fr => negb (mentions_internal (entry_func fr))) library_frames with
  | Some fr =>
      py "🔍 **Look at this code:** " ++ entry_func fr ++ py " at " ++ entry_file fr
      ++ py ":" ++ entry_line fr ++ NL
  | None => []
  end.

Definition chain_heading : str := py "📋 **What happened (simplified):**" ++ NL.

(** The literal part of the exit pattern. *)
Definition exit_marker : str := py "exited with code ".

(** The marker is nowhere followed by a character of the class. *)
Definition no_exit_digits (cls : char -> bool) (output : str) : Prop :=
  forall a b, output = a ++ exit_marker ++ b -> not_headed_by cls b.

(** [ds] is the whole run of characters of the class that follows the first
    marker followed by such a character. *)
Definition first_exit_digits (cls : char -> bool) (output ds : str) : Prop :=
  exists a rest,
    output = a ++ exit_marker ++ ds ++ rest
    /\ ds <> [] /\ all_in cls ds /\ not_headed_by cls rest
    /\ forall p q, output = p ++ exit_marker ++ q -> length p < length a ->
                   not_headed_by cls q.

(** The text is no longer than what [int] converts: the limit is off, or the
    text has no more characters than the limit allows digits. *)
Definition within_int_limit (interp : interpreter) (output : str) : Prop :=
  int_max_str_digits interp = 0%N
  \/ (N.of_nat (length output) <= int_max_str_digits interp)%N.

(** The parts of a stretch of text that the frame pattern matches, in order:
    ["#" num sp1 addr sp2 "in" sp3 func params sp4 "(" args ")" sp5 "at" sp6
    file ":" line]. *)
Record frame_parts : Type := mk_frame_parts {
  p_num : str;
  p_sp1 : str;
  p_addr : str;
  p_sp2 : str;
  p_sp3 : str;
  p_func : str;
  p_params : str;
  p_sp4 : str;
  p_args : str;
  p_sp5 : str;
  p_sp6 : str;
  p_file : str;
  p_line : str
}.

Definition frame_text (p : frame_parts) : str :=
  py "#" ++ p_num p ++ p_sp1 p ++ p_addr p ++ p_sp2 p ++ py "in" ++ p_sp3 p
  ++ p_func p ++ p_params p ++ p_sp4 p ++ py "(" ++ p_args p ++ py ")"
  ++ p_sp5 p ++ py "at" ++ p_sp6 p ++ p_file p ++ py ":" ++ p_line p.

(** What the pattern asks of each part; [digit] is the class [\d]. *)
Definition well_formed (digit : char -> bool) (p : frame_parts) : Prop :=
  run_of digit (p_num p)
  /\ run_of is_space (p_sp1 p)
  /\ (p_addr p = [] \/ exists h, p_addr p = py "0x" ++ h /\ run_of is_hex h)
  /\ run_of is_space (p_sp2 p)
  /\ run_of is_space (p_sp3 p)
  /\ run_of not_lparen (p_func p)
  /\ (p_params p = [] \/
      exists q, p_params p = py "(" ++ q ++ py ")" /\ all_in not_rparen q)
  /\ run_of is_space (p_sp4 p)
  /\ all_in not_rparen (p_args p)
  /\ run_of is_space (p_sp5 p)
  /\ run_of is_space (p_sp6 p)
  /\ run_of dot (p_file p)
  /\ run_of digit (p_line p).

(** The frame that [re.findall] reports for the parts. *)
Definition frame_of_parts (p : frame_parts) : frame :=
  (p_num p, p_addr p, p_func p, p_params p, p_file p, p_line p).



Definition ascii_blank (c : char) : bool :=
  ((c =? 32) || (9 <=? c) && (c <=? 13))%N.

(** A frame line as the debugger prints it for a frame that stands at the
    beginning of a source line: the marker, the ordinal, blanks, and then the
    function name at once, with neither an address nor the word "in" before
    it. *)
Definition addressless_line (num blanks rest : str) : Prop :=
  run_of ascii_digit num
  /\ run_of ascii_blank blanks
  /\ not_headed_by is_space rest
  /\ ~ prefix_of (py "0x") rest
  /\ forall r, rest = py "in" ++ r -> not_headed_by is_space r.

Definition addressless_text (num blanks rest : str) : str :=
  py "#" ++ num ++ blanks ++ rest.

(** What is no whitespace. *)
Definition no_space (c : char) : bool := negb (is_space c).

(** A word: not empty, and free of whitespace. *)
Definition word (s : str) : Prop := s <> [] /\ all_in no_space s.






(** ** Texts and machines for the instances *)

(** An interpreter for the instances below: CPython's default limit of 4300
    digits, and a table without digits beyond ASCII, which ASCII text never
    consults. *)
Definition plain_interpreter : interpreter :=
  {| unicode_decimal := fun _ => None; int_max_str_digits := 4300%N |}.

(** The text of the specification's end-to-end example. *)
Definition example_input : str :=
  py "Program received signal SIGSEGV..." ++ NL
  ++ py "#0  0x0000000000401146 in crash_func () at /home/user/app.c:10" ++ NL
  ++ py "#1  0x0000000000401160 in main () at /home/user/app.c:15" ++ NL.

(** A crash text that also reports an exit code, and the exit line gdb prints
    for status 1 (gdb writes the status in octal, with a leading zero). *)
Definition signal_and_exit_input : str :=
  py "Program received signal SIGSEGV, Segmentation fault." ++ NL
  ++ py "[Inferior 1 (process 4242) exited with code 0]" ++ NL.

Definition octal_exit_input : str :=
  py "[Inferior 1 (process 4242) exited with code 01]" ++ NL.

Definition zero_exit_input : str :=
  py "[Inferior 1 (process 4242) exited with code 00]" ++ NL.

Definition negative_exit_input : str :=
  py "[Inferior 1 (process 4242) exited with code -1]" ++ NL.

(** A crash in a source file that lies under a directory named after a
    shared library. *)
Definition plugin_input : str :=
  py "Program received signal SIGSEGV, Segmentation fault." ++ NL
  ++ py "#0  0x0000000000401136 in render_hook () at /home/user/plugin.so.d/hook.c:12"
  ++ NL.

(** A crash with a single frame of user code. *)
Definition single_frame_input : str :=
  py "Program received signal SIGSEGV, Segmentation fault." ++ NL
  ++ py "#0  0x0000000000401136 in main () at /home/user/app.c:7" ++ NL.

(** An abort inside the C library, seen with its debug information. *)
Definition abort_input : str :=
  py "Program received signal SIGABRT, Aborted." ++ NL
  ++ py "#0  0x00007ffff7e3a00b in __GI_raise (sig=6) at ../sysdeps/unix/sysv/linux/raise.c:50"
  ++ NL
  ++ py "#1  0x00007ffff7e19859 in __GI_abort () at abort.c:79" ++ NL
  ++ py "#2  0x00007ffff7e8447c in malloc_printerr (str=0x7ffff7faa5d0) at malloc.c:5347"
  ++ NL.

(** A crash in library code reached through a template instantiated at a
    standard type. *)
Definition template_input : str :=
  py "Program received signal SIGSEGV, Segmentation fault." ++ NL
  ++ py "#0  0x00007ffff7b10000 in Wrapper<std::string>::get (this=0x0) at /usr/include/wrapper.h:31"
  ++ NL
  ++ py "#1  0x00007ffff7b20000 in helper_call () at /usr/lib/helper.c:7" ++ NL.

(** A machine without the debugger: every launch fails for want of the file. *)
Definition debugger_missing
  : list str -> option N -> str -> outcome completed_process :=
  fun _ _ _ =>
    Raise (mk_exception FileNotFoundError
             (py "[Errno 2] No such file or directory: 'gdb'")).




(** The line gdb prints when the program ends with status 0. *)
Definition normal_exit_input : str :=
  py "[Inferior 1 (process 4242) exited normally]" ++ NL.

(** An exit line whose code has one digit more than the default limit. *)
Definition long_exit_code : str := repeat 48%N 4301.
Definition long_exit_input : str := exit_marker ++ long_exit_code ++ py "]" ++ NL.



(** A machine on which the debugger may not be executed. *)
Definition debugger_forbidden
  : list str -> option N -> str -> outcome completed_process :=
  fun _ _ _ =>
    Raise (mk_exception PermissionError (py "[Errno 13] Permission denied: 'gdb'")).

(** A crash in the first instruction of a source line: gdb prints frame 0
    without an address. *)
Definition addressless_rest : str := py "main () at /home/user/app.c:5" ++ NL.
Definition addressless_input : str :=
  py "Program received signal SIGSEGV, Segmentation fault." ++ NL
  ++ addressless_text (py "0") (py "  ") addressless_rest.

(** Five frames of user code, innermost first. *)
Definition five_user_frames : list entry :=
  [ (py "0", py "leaf", py "app.c", py "3");
    (py "1", py "inner", py "app.c", py "9");
    (py "2", py "middle", py "app.c", py "14");
    (py "3", py "outer", py "app.c", py "20");
    (py "4", py "main", py "app.c", py "27") ].


(** A debugger that completes with [text] on its standard output. *)
Definition debugger_writes (text : str)
  : list str -> option N -> str -> outcome completed_process :=
  fun _ _ _ => Return (mk_completed_process text []).

(** A machine with one program, [./a.out], and one process, 4242: other
    paths do not exist, other numbers name no process, and a number beyond
    the range of process ids makes the probe overflow.  The debugger is run
    by [run]. *)
Definition machine_with
  (run : list str -> option N -> str -> outcome completed_process) : machine :=
  mk_machine
    (fun _ => run)
    (fun _ path => str_eqb path (py "./a.out"))
    (fun _ path => Return (str_eqb path (py "./a.out")))
    (fun _ pid =>
       if (Z.abs pid <? 2 ^ 31)%Z then
         if (pid =? 4242)%Z then Return tt
         else Raise (mk_exception OSError (py "[Errno 3] No such process"))
       else Raise (mk_exception (OtherError (py "OverflowError"))
                     (py "signed integer is greater than maximum"))).

(** The state in which a run starts. *)
Definition start : world := mk_world [] 0.

(** * Properties *)

(** ** Text *)

Lemma startswith_spec (p s : str) : startswith s p = true <-> prefix_of p s.
Proof.
  revert s; induction p as [|x p IH]; intros s; simpl.
  - split; [intros _; now exists s | reflexivity].
  - destruct s as [|c s].
    + split; [discriminate | intros [t Ht]; discriminate].
    + rewrite andb_true_iff, N.eqb_eq, IH. split.
      * intros [-> [t ->]]. now exists t.
      * intros [t Ht]. injection Ht as -> ->. split; [reflexivity | now exists t].
Qed.

Lemma startswith_false (p s : str) : startswith s p = false <-> ~ prefix_of p s.
Proof.
  rewrite <- startswith_spec. destruct (startswith s p); split; congruence.
Qed.

Lemma contains_spec (sub s : str) : contains sub s = true <-> substring_of sub s.
Proof.
  induction s as [|c s IH]; simpl.
  - rewrite startswith_spec. split.
    + intros [t Ht]. exists [], t. exact Ht.
    + intros [a [b Hab]]. destruct a; [|discriminate]. now exists b.
  - rewrite orb_true_iff, startswith_spec, IH. split.
    + intros [[t Ht] | [a [b Hab]]].
      * exists [], t. exact Ht.
      * exists (c :: a), b. simpl. now rewrite Hab.
    + intros [[|x a] [b Hab]].
      * left. now exists b.
      * right. injection Hab as _ ->. now exists a, b.
Qed.

Lemma contains_false (sub s : str) :
  contains sub s = false <-> ~ substring_of sub s.
Proof.
  rewrite <- contains_spec. destruct (contains sub s); split; congruence.
Qed.

Lemma drop_prefix_spec (p s t : str) : drop_prefix p s = Some t <-> s = p ++ t.
Proof.
  revert s; induction p as [|x p IH]; intros s; simpl.
  - split; [now intros [= ->] | now intros ->].
  - destruct s as [|c s]; [split; discriminate|].
    destruct (N.eqb_spec c x) as [->|Hne].
    + rewrite IH. split; [now intros -> | now intros [= ->]].
    + split; [discriminate | intros [= ? _]; contradiction].
Qed.

Lemma drop_prefix_app (p t : str) : drop_prefix p (p ++ t) = Some t.
Proof. now apply drop_prefix_spec. Qed.


Lemma Exists_prefix_of (s : str) (l : list str) :
  Exists (fun p => prefix_of p s) l <-> existsb (startswith s) l = true.
Proof.
  rewrite Exists_exists, existsb_exists.
  split; intros [p [Hin Hp]]; exists p; split; try assumption;
    now apply startswith_spec.
Qed.

Lemma Exists_substring_of (s : str) (l : list str) :
  Exists (fun sub => substring_of sub s) l
  <-> existsb (fun sub => contains sub s) l = true.
Proof.
  rewrite Exists_exists, existsb_exists.
  split; intros [p [Hin Hp]]; exists p; split; try assumption;
    now apply contains_spec.
Qed.

Lemma all_in_forallb (cls : char -> bool) (s : str) :
  forallb cls s = true -> all_in cls s.
Proof. intros H. apply Forall_forall. now apply forallb_forall. Qed.

(** Splitting a text at the first character outside a class is unambiguous. *)
Lemma first_outside_unique (cls : char -> bool) (u u' v v' : str) :
  all_in cls u -> all_in cls u' ->
  not_headed_by cls v -> not_headed_by cls v' ->
  u ++ v = u' ++ v' -> u = u' /\ v = v'.
Proof.
  intros Hu; revert u'; induction Hu as [|c u Hc Hu IH]; intros u' Hu' Hv Hv' E.
  - destruct Hu' as [|c' u' Hc' Hu']; [now split|].
    simpl in E. subst v. simpl in Hv. congruence.
  - destruct Hu' as [|c' u' Hc' Hu'].
    + simpl in E. subst v'. simpl in Hv'. congruence.
    + simpl in E. injection E as -> E.
      destruct (IH u' Hu' Hv Hv' E) as [-> ->]. now split.
Qed.

(** ** The matcher *)

Lemma consumed_app (m s' : str) : consumed (m ++ s') s' = m.
Proof.
  unfold consumed. rewrite length_app, Nat.add_sub.
  rewrite firstn_app, Nat.sub_diag, firstn_all. simpl. apply app_nil_r.
Qed.

Lemma span_app (cls : char -> bool) (s : str) :
  s = fst (span cls s) ++ snd (span cls s).
Proof.
  induction s as [|c s IH]; simpl; [reflexivity|].
  destruct (cls c); [|reflexivity].
  destruct (span cls s) as [run rest]. simpl in *. now rewrite IH at 1.
Qed.

Lemma span_all_in (cls : char -> bool) (s : str) : all_in cls (fst (span cls s)).
Proof.
  induction s as [|c s IH]; simpl; [constructor|].
  destruct (cls c) eqn:Hc; [|constructor].
  destruct (span cls s) as [run rest]. simpl in *. now constructor.
Qed.

Lemma span_rest (cls : char -> bool) (s : str) :
  not_headed_by cls (snd (span cls s)).
Proof.
  induction s as [|c s IH]; simpl; [exact I|].
  destruct (cls c) eqn:Hc; [|exact Hc].
  destruct (span cls s) as [run rest]. exact IH.
Qed.

Lemma span_run (cls : char -> bool) (run rest : str) :
  all_in cls run -> not_headed_by cls rest -> span cls (run ++ rest) = (run, rest).
Proof.
  intros Hrun Hrest.
  destruct (@first_outside_unique cls _ _ _ _ (span_all_in cls (run ++ rest)) Hrun
              (span_rest cls (run ++ rest)) Hrest
              (eq_sym (span_app cls (run ++ rest)))) as [E1 E2].
  destruct (span cls (run ++ rest)); simpl in *; congruence.
Qed.

(** Whatever a repetition hands to its continuation is the text after a run
    of the class. *)
Lemma star_sound (R : Type) (greedy : bool) (cls : char -> bool) (s : str)
  (k : str -> option R) (x : R) :
  star greedy cls s k = Some x ->
  exists m s', s = m ++ s' /\ all_in cls m /\ k s' = Some x.
Proof.
  induction s as [|c s IH]; simpl; intros H.
  - exists [], []. repeat split; [constructor | exact H].
  - destruct (cls c) eqn:Hc.
    + assert (Hrec : star greedy cls s k = Some x \/ k (c :: s) = Some x).
      { destruct greedy.
        - destruct (star true cls s k); [left; exact H | right; exact H].
        - destruct (k (c :: s)); [right; exact H | left; exact H]. }
      destruct Hrec as [Hs | Hk].
      * destruct (IH Hs) as [m [s' [-> [Hm Hk]]]].
        exists (c :: m), s'. repeat split; [now constructor | exact Hk].
      * exists [], (c :: s). repeat split; [constructor | exact Hk].
    + exists [], (c :: s). repeat split; [constructor | exact H].
Qed.

(** A greedy repetition followed by something that cannot fail takes the
    whole run. *)
Lemma star_greedy_total (R : Type) (cls : char -> bool) (s : str) (f : str -> R) :
  star true cls s (fun s' => Some (f s')) = Some (f (snd (span cls s))).
Proof.
  induction s as [|c s IH]; simpl; [reflexivity|].
  destruct (cls c); [|reflexivity].
  rewrite IH. now destruct (span cls s).
Qed.

(** Soundness of the matcher: a successful run consumed a text of the
    pattern's language, recorded its captures, and went on with the rest. *)
Lemma exec_sound (R : Type) (r : regex) :
  forall (s : str) (g : groups) (k : str -> groups -> option R) (x : R),
    exec r s g k = Some x ->
    exists m s' g', s = m ++ s' /\ matches r m g g' /\ k s' g' = Some x.
Proof.
  induction r as [l | cls | greedy cls | r IH | i r IH | r1 IH1 r2 IH2];
    intros s g k x H; simpl in H.
  - destruct (drop_prefix l s) as [s'|] eqn:E; [|discriminate].
    apply drop_prefix_spec in E. exists l, s', g.
    repeat split; [exact E | constructor | exact H].
  - destruct s as [|c s']; [discriminate|].
    destruct (cls c) eqn:Hc; [|discriminate].
    exists [c], s', g. repeat split; [now constructor | exact H].
  - apply star_sound in H. destruct H as [m [s' [-> [Hm Hk]]]].
    exists m, s', g. repeat split; [now constructor | exact Hk].
  - destruct (exec r s g k) as [y|] eqn:E.
    + injection H as ->. destruct (IH _ _ _ _ E) as [m [s' [g' [-> [Hm Hk]]]]].
      exists m, s', g'. repeat split; [now constructor | exact Hk].
    + exists [], s, g. repeat split; [apply matches_opt_skipped | exact H].
  - destruct (IH _ _ _ _ H) as [m [s' [g' [-> [Hm Hk]]]]].
    rewrite consumed_app in Hk.
    exists m, s', (set_group i m g'). repeat split; [now constructor | exact Hk].
  - destruct (IH1 _ _ _ _ H) as [m1 [s1 [g1 [-> [Hm1 Hk1]]]]].
    destruct (IH2 _ _ _ _ Hk1) as [m2 [s2 [g2 [-> [Hm2 Hk2]]]]].
    exists (m1 ++ m2), s2, g2. rewrite <- app_assoc.
    repeat split; [econstructor; eassumption | exact Hk2].
Qed.

Lemma match_at_sound (r : regex) (s rest : str) (g : groups) :
  match_at r s = Some (g, rest) ->
  exists m, s = m ++ rest /\ matches r m [] g.
Proof.
  unfold match_at. intros H. apply exec_sound in H.
  destruct H as [m [s' [g' [-> [Hm [= -> ->]]]]]]. now exists m.
Qed.


(** ** Indexing *)

Lemma getitem_first (A : Type) (x : A) (l : list A) : getitem (x :: l) 0 = Return x.
Proof.
  unfold getitem. cbn [Z.ltb Z.compare].
  replace ((0 <=? 0) && (0 <? Z.of_nat (length (x :: l))))%Z with true; [reflexivity|].
  symmetry. apply andb_true_iff. split; [reflexivity|].
  apply Z.ltb_lt. simpl length. lia.
Qed.

(** Counting [i + 1] places back from the end of [l] reaches the place [i] of
    the reversed list. *)
Lemma getitem_from_end (A : Type) (l : list A) (i : nat) (x : A) :
  nth_error (rev l) i = Some x -> getitem l (- (Z.of_nat i + 1)) = Return x.
Proof.
  intros Hx.
  assert (Hi : i < length l).
  { rewrite <- length_rev. apply nth_error_Some. congruence. }
  unfold getitem.
  replace (- (Z.of_nat i + 1) <? 0)%Z with true by (symmetry; apply Z.ltb_lt; lia).
  set (j := (- (Z.of_nat i + 1) + Z.of_nat (length l))%Z).
  replace ((0 <=? j) && (j <? Z.of_nat (length l)))%Z with true.
  2:{ symmetry. apply andb_true_iff. split; [apply Z.leb_le | apply Z.ltb_lt]; lia. }
  replace (Z.to_nat j) with (length l - S i) by lia.
  rewrite nth_error_rev in Hx.
  apply Nat.ltb_lt in Hi. rewrite Hi in Hx. now rewrite Hx.
Qed.

(** ** Classification *)

Lemma classify_step_entry (u l : list entry) (fr : frame) :
  classify_step (u, l) fr =
  if frame_is_library fr then (u, l ++ [entry_of fr]) else (u ++ [entry_of fr], l).
Proof.
  destruct fr as [[[[[frame_num addr] func] params] file] line].
  unfold classify_step, frame_is_library, entry_of, frame_func, frame_file.
  destruct params; reflexivity.
Qed.

Lemma classify_from (frames : list frame) (u l : list entry) :
  fold_left classify_step frames (u, l) =
  (u ++ map entry_of (filter (fun fr => negb (frame_is_library fr)) frames),
   l ++ map entry_of (filter frame_is_library frames)).
Proof.
  revert u l; induction frames as [|fr frames IH]; intros u l.
  - simpl. now rewrite !app_nil_r.
  - cbn [fold_left]. rewrite classify_step_entry.
    destruct (frame_is_library fr) eqn:E; rewrite IH; cbn [filter];
      rewrite E; cbn [negb map]; rewrite <- ?app_assoc; reflexivity.
Qed.

(** The loop sorts the frames, in order, into the two lists by [is_library]. *)
Lemma classify_partition (frames : list frame) :
  classify frames =
  (map entry_of (filter (fun fr => negb (frame_is_library fr)) frames),
   map entry_of (filter frame_is_library frames)).
Proof. unfold classify. now rewrite classify_from. Qed.

Lemma is_library_rule (func file : str) :
  is_library func file = true <-> library_rule func file.
Proof.
  unfold is_library, library_rule, library_roots, runtime_fragments,
    shared_library_extension, internal_prefixes.
  cbn [existsb].
  assert (Hff : false = true <-> False) by (split; [discriminate | tauto]).
  rewrite !orb_true_iff, !startswith_spec, !contains_spec, Hff.
  rewrite !Exists_cons, !Exists_nil. tauto.
Qed.

(** ** Signal detection *)

Lemma detect_signal_first (items : list (str * str)) (output sig : str) :
  detect_signal items output = Some sig <->
  exists earlier later,
    map fst items = earlier ++ sig :: later
    /\ substring_of sig output
    /\ Forall (fun name => ~ substring_of name output) earlier.
Proof.
  induction items as [|[k v] items IH]; simpl.
  - split; [discriminate|]. intros [earlier [later [E _]]].
    now destruct earlier.
  - destruct (contains k output) eqn:C.
    + apply contains_spec in C. split.
      * intros [= ->]. exists [], (map fst items). repeat split; [exact C | constructor].
      * intros [[|e earlier] [later [E [Hsig Hearlier]]]].
        -- now injection E as ->.
        -- injection E as <- _. inversion Hearlier; contradiction.
    + apply contains_false in C. rewrite IH. split.
      * intros [earlier [later [E [Hsig Hearlier]]]].
        exists (k :: earlier), later. simpl. rewrite E.
        repeat split; [exact Hsig | now constructor].
      * intros [[|e earlier] [later [E [Hsig Hearlier]]]].
        -- injection E as -> _. contradiction.
        -- injection E as _ E. exists earlier, later.
           repeat split; [exact E | exact Hsig | now inversion Hearlier].
Qed.

Lemma detect_signal_none (items : list (str * str)) (output : str) :
  detect_signal items output = None <->
  Forall (fun name => ~ substring_of name output) (map fst items).
Proof.
  induction items as [|[k v] items IH]; simpl.
  - split; [constructor | reflexivity].
  - destruct (contains k output) eqn:C.
    + apply contains_spec in C. split; [discriminate|].
      intros H. inversion H; contradiction.
    + apply contains_false in C. rewrite IH. split.
      * now constructor.
      * now inversion 1.
Qed.

Lemma signal_names_keys : map fst FRIENDLY_SIGNALS = signal_names.
Proof. reflexivity. Qed.

(** A detected signal is a key of the dict, and a key is not empty. *)
Lemma detect_signal_key (items : list (str * str)) (output sig : str) :
  detect_signal items output = Some sig -> In sig (map fst items).
Proof.
  intros H. apply detect_signal_first in H.
  destruct H as [earlier [later [E _]]]. rewrite E.
  apply in_or_app. right. now left.
Qed.

Lemma signal_names_not_empty (sig : str) :
  In sig signal_names -> is_empty sig = false.
Proof.
  unfold signal_names. simpl.
  intros [<- | [<- | [<- | [<- | [<- | [<- | [<- | []]]]]]]]; reflexivity.
Qed.

(** ** Rendering *)

Lemma skipn_nth_error (A : Type) (l : list A) (a : nat) (x : A) :
  nth_error l a = Some x -> skipn a l = x :: skipn (S a) l.
Proof.
  revert a; induction l as [|y l IH]; intros [|a] H; try discriminate.
  - now injection H as ->.
  - simpl in H. apply IH in H. exact H.
Qed.

Lemma firstn_min_length (A : Type) (k : nat) (l : list A) :
  firstn (Nat.min k (length l)) l = firstn k l.
Proof.
  destruct (Nat.le_gt_cases k (length l)) as [H | H].
  - now rewrite Nat.min_l.
  - rewrite Nat.min_r, firstn_all by lia. symmetry. apply firstn_all2. lia.
Qed.

(** The loop of lines 152 and 153 walks inward from the frame next to the
    outermost one. *)
Lemma for_range_chain (user_frames inward : list entry) (outermost : entry) :
  rev user_frames = outermost :: inward ->
  forall (k a : nat) (result : str),
    a + k <= length inward ->
    for_range (seq a k)
      (fun i result =>
         bind (getitem user_frames (- (Z.of_nat i + 2)))
           (fun fr => Return (result ++ py "   " ++ str_of_int (N.of_nat (i + 2))
                                     ++ py ". " ++ entry_func fr ++ NL)))
      result
    = Return (result ++ chain_steps (a + 2) (firstn k (skipn a inward))).
Proof.
  intros Hrev. induction k as [|k IH]; intros a result Hk; cbn [seq for_range].
  - cbn [firstn chain_steps]. now rewrite app_nil_r.
  - destruct (nth_error inward a) as [x|] eqn:Hx.
    2:{ apply nth_error_None in Hx. lia. }
    replace (- (Z.of_nat a + 2))%Z with (- (Z.of_nat (S a) + 1))%Z by lia.
    rewrite (@getitem_from_end _ user_frames (S a) x)
      by (rewrite Hrev; exact Hx).
    cbn [bind]. rewrite IH by lia.
    rewrite (@skipn_nth_error _ _ _ _ Hx). cbn [firstn chain_steps].
    replace (S a + 2) with (S (a + 2)) by lia.
    now rewrite <- !app_assoc.
Qed.

Lemma chain_text_eq (innermost second outermost : entry) (rest inward : list entry) :
  rev (innermost :: second :: rest) = outermost :: inward ->
  chain_text (innermost :: second :: rest)
  = py "   1. " ++ entry_func outermost ++ py " (started here)" ++ NL
    ++ chain_steps 2 (firstn 3 inward)
    ++ py "   → " ++ entry_func innermost ++ py " (crashed here)" ++ NL.
Proof. intros H. unfold chain_text. now rewrite H. Qed.

Lemma call_chain_spec (user_frames : list entry) (result : str) :
  call_chain user_frames result = Return (result ++ chain_text user_frames).
Proof.
  destruct user_frames as [|u0 [|u1 rest]].
  - unfold call_chain, chain_text. simpl. now rewrite app_nil_r.
  - unfold call_chain, chain_text. simpl. now rewrite app_nil_r.
  - assert (Hlen : length (rev (u0 :: u1 :: rest)) = S (S (length rest)))
      by now rewrite length_rev.
    destruct (rev (u0 :: u1 :: rest)) as [|outermost inward] eqn:Hrev;
      [discriminate|].
    injection Hlen as Hlen.
    rewrite (@chain_text_eq _ _ _ _ _ Hrev).
    set (frames := u0 :: u1 :: rest) in *.
    unfold call_chain.
    replace (1 <? length frames) with true by reflexivity.
    change (-1)%Z with (- (Z.of_nat 0 + 1))%Z.
    rewrite (@getitem_from_end _ frames 0 outermost) by now rewrite Hrev.
    cbn [bind].
    replace (length frames - 1) with (length inward) by (subst frames; simpl; lia).
    rewrite (@for_range_chain frames _ _ Hrev) by (cbn [Nat.add]; apply Nat.le_min_r).
    cbn [bind]. unfold frames at 1. rewrite getitem_first. cbn [bind].
    rewrite firstn_min_length. cbn [skipn Nat.add].
    now rewrite <- !app_assoc.
Qed.

Lemma system_hint_spec (library_frames : list entry) (result : str) :
  system_hint library_frames result
  = Return (result ++ system_hint_text library_frames).
Proof.
  destruct library_frames as [|fr rest]; unfold system_hint, system_hint_text.
  - simpl. now rewrite app_nil_r.
  - cbn [is_empty negb]. rewrite getitem_first. reflexivity.
Qed.

Lemma library_hint_spec (library_frames : list entry) (result : str) :
  library_hint library_frames result = result ++ library_hint_text library_frames.
Proof.
  unfold library_hint_text.
  induction library_frames as [|[[[frame_num func] file] line] rest IH];
    cbn [library_hint find].
  - now rewrite app_nil_r.
  - unfold mentions_internal, internal_terms at 1. cbn [entry_func].
    destruct (negb _); [reflexivity | exact IH].
Qed.

(** ** The two patterns *)

Lemma search_nil (r : regex) :
  search r [] = match match_at r [] with Some (g, _) => Some g | None => None end.
Proof. reflexivity. Qed.

Lemma search_cons (r : regex) (c : char) (s : str) :
  search r (c :: s) =
  match match_at r (c :: s) with Some (g, _) => Some g | None => search r s end.
Proof. reflexivity. Qed.

Section SummarizerProperties.

Variable interp : interpreter.

(** A match of the exit pattern at the start of [s]: the marker, then the
    whole run of digits. *)
Lemma match_at_exit (s : str) :
  match_at (exit_pattern interp) s =
  match drop_prefix exit_marker s with
  | Some (c :: s2) =>
      if is_digit interp c
      then Some ([(1, c :: fst (span (is_digit interp) s2))],
                 snd (span (is_digit interp) s2))
      else None
  | _ => None
  end.
Proof.
  unfold match_at, exit_pattern, cat, Plus. cbn [exec]. fold exit_marker.
  destruct (drop_prefix exit_marker s) as [[|c s2]|]; try reflexivity.
  destruct (is_digit interp c); [|reflexivity].
  rewrite (star_greedy_total (is_digit interp) s2
             (fun s' => (set_group 1 (consumed (c :: s2) s') [], s'))).
  set (p := span (is_digit interp) s2).
  assert (E : c :: s2 = (c :: fst p) ++ snd p)
    by (simpl; f_equal; apply span_app).
  rewrite E at 1. now rewrite consumed_app.
Qed.

Lemma match_at_exit_none (s : str) :
  (forall b, s = exit_marker ++ b -> not_headed_by (is_digit interp) b) ->
  match_at (exit_pattern interp) s = None.
Proof.
  intros H. rewrite match_at_exit.
  destruct (drop_prefix exit_marker s) as [[|c s2]|] eqn:E; try reflexivity.
  apply drop_prefix_spec in E. apply H in E. simpl in E. now rewrite E.
Qed.

Lemma search_exit_none_from (pre s : str) :
  no_exit_digits (is_digit interp) (pre ++ s) ->
  search (exit_pattern interp) s = None.
Proof.
  revert pre; induction s as [|c s IH]; intros pre H.
  - rewrite search_nil, match_at_exit_none; [reflexivity|].
    intros b Hb. apply (H pre b). now rewrite Hb.
  - rewrite search_cons, match_at_exit_none.
    + apply (IH (pre ++ [c])). now rewrite <- app_assoc.
    + intros b Hb. apply (H pre b). now rewrite Hb.
Qed.

Lemma search_exit_none (output : str) :
  no_exit_digits (is_digit interp) output ->
  search (exit_pattern interp) output = None.
Proof. apply (search_exit_none_from []). Qed.

Lemma search_exit_first (output ds : str) :
  first_exit_digits (is_digit interp) output ds ->
  search (exit_pattern interp) output = Some [(1, ds)].
Proof.
  intros [a [rest [-> [Hne [Hds [Hrest Hfirst]]]]]].
  induction a as [|x a IH].
  - destruct ds as [|d ds]; [contradiction|]. inversion Hds as [|? ? Hd Hds']; subst.
    assert (Hm : match_at (exit_pattern interp)
                   ([] ++ exit_marker ++ (d :: ds) ++ rest)
                 = Some ([(1, d :: ds)], rest)).
    { rewrite match_at_exit. cbn [app]. rewrite drop_prefix_app.
      cbn [app]. rewrite Hd, (@span_run _ _ _ Hds' Hrest). reflexivity. }
    change ([] ++ exit_marker ++ (d :: ds) ++ rest)
      with (exit_marker ++ (d :: ds) ++ rest) in *.
    destruct (exit_marker ++ (d :: ds) ++ rest) as [|c s] eqn:E.
    + rewrite search_nil. now rewrite Hm.
    + rewrite search_cons. now rewrite Hm.
  - cbn [app]. rewrite search_cons, match_at_exit_none.
    + apply IH. intros p q Hpq Hlen.
      apply (Hfirst (x :: p) q); [cbn [app]; now rewrite Hpq | simpl; lia].
    + intros b Hb. apply (Hfirst [] b); [exact Hb | simpl; lia].
Qed.

Lemma int_digits_all (s : str) (acc n : N) :
  int_digits interp acc s = Return n -> all_in (is_digit interp) s.
Proof.
  revert acc; induction s as [|c s IH]; intros acc H; [constructor|].
  simpl in H. destruct (decimal_value interp c) as [d|] eqn:Hd;
    [|discriminate].
  constructor; [unfold is_digit; now rewrite Hd | now apply (IH _ H)].
Qed.

Lemma int_return (s : str) (n : N) :
  int interp s = Return n ->
  s <> [] /\ all_in (is_digit interp) s.
Proof.
  unfold int. destruct s as [|c s]; [discriminate|]. cbn [is_empty].
  destruct (_ && _); [discriminate|].
  intros H. split; [discriminate | now apply (@int_digits_all _ _ _ H)].
Qed.

(** [int] does not fail on a run of decimal digits. *)
Lemma int_digits_total (s : str) (acc : N) :
  all_in (is_digit interp) s ->
  exists n, int_digits interp acc s = Return n.
Proof.
  intros H; revert acc; induction H as [|c s Hc Hs IH]; intros acc; simpl.
  - now exists acc.
  - unfold is_digit in Hc.
    destruct (decimal_value interp c); [apply IH | discriminate].
Qed.

(** [int] converts a non-empty run of decimal digits that is no longer than
    the interpreter's limit. *)
Lemma int_total (s : str) :
  run_of (is_digit interp) s ->
  int_max_str_digits interp = 0%N
  \/ (N.of_nat (length s) <= int_max_str_digits interp)%N ->
  exists n, int interp s = Return n.
Proof.
  intros [Hne Hs] Hlimit. unfold int.
  destruct s as [|c s]; [contradiction|]. cbn [is_empty].
  replace ((0 <? int_max_str_digits interp)
           && (int_max_str_digits interp <? N.of_nat (length (c :: s))))%N
    with false.
  - now apply int_digits_total.
  - symmetry. apply andb_false_iff.
    destruct Hlimit as [-> | Hle]; [left; reflexivity | right].
    apply N.ltb_ge. exact Hle.
Qed.

(** What the search of line 106 captures is a non-empty run of digits taken
    from the text. *)
Lemma search_exit_group (s : str) (g : groups) :
  search (exit_pattern interp) s = Some g ->
  run_of (is_digit interp) (group 1 g) /\ length (group 1 g) <= length s.
Proof.
  induction s as [|c s IH]; intros H.
  - rewrite search_nil, match_at_exit in H. vm_compute in H. discriminate.
  - rewrite search_cons, match_at_exit in H.
    destruct (drop_prefix exit_marker (c :: s)) as [[|d s2]|] eqn:Hp;
      try (destruct (IH H) as [Hrun Hlen]; split; [exact Hrun | simpl; lia]).
    destruct (is_digit interp d) eqn:Hd;
      try (destruct (IH H) as [Hrun Hlen]; split; [exact Hrun | simpl; lia]).
    injection H as <-. cbn [group Nat.eqb].
    apply drop_prefix_spec in Hp. rewrite Hp.
    split; [split; [discriminate | constructor; [exact Hd | apply span_all_in]]|].
    rewrite (span_app (is_digit interp) s2) at 2.
    rewrite !length_app. simpl. rewrite length_app. lia.
Qed.

End SummarizerProperties.

(** ** The summarizer *)

Section SummarizerReports.

Variable interp : interpreter.

Lemma detect_signal_free (output : str) :
  detect_signal FRIENDLY_SIGNALS output = None <-> signal_free output.
Proof.
  unfold signal_free. rewrite <- signal_names_keys. apply detect_signal_none.
Qed.

Lemma detect_signal_nonempty (output sig : str) :
  detect_signal FRIENDLY_SIGNALS output = Some sig -> output <> [].
Proof. intros H ->. vm_compute in H. discriminate. Qed.

(** On a detected signal the summarizer goes on to the crash report. *)
Lemma parse_signal (output sig : str) :
  detect_signal FRIENDLY_SIGNALS output = Some sig ->
  parse_gdb_output interp output = report_crash interp sig output.
Proof.
  intros H. unfold parse_gdb_output.
  destruct output as [|c s]; [now apply detect_signal_nonempty in H|].
  cbn [is_empty]. rewrite H.
  apply detect_signal_key in H. rewrite signal_names_keys in H.
  now rewrite (@signal_names_not_empty _ H).
Qed.

(** Without a signal name in the text, it goes on to the exit-code report. *)
Lemma parse_no_signal (output : str) :
  output <> [] -> signal_free output ->
  parse_gdb_output interp output = report_exit interp output.
Proof.
  intros Hne Hfree. unfold parse_gdb_output.
  destruct output as [|c s]; [contradiction|]. cbn [is_empty].
  apply detect_signal_free in Hfree. now rewrite Hfree.
Qed.

Lemma report_crash_user (sig output : str) (innermost : entry) (rest : list entry) :
  user_frames_of interp output = innermost :: rest ->
  report_crash interp sig output
  = Return (header sig
            ++ problem_block (entry_func innermost) (entry_file innermost)
                 (entry_line innermost)
            ++ chain_heading
            ++ chain_text (innermost :: rest)
            ++ system_hint_text (library_frames_of interp output)
            ++ quick_tips).
Proof.
  unfold user_frames_of, library_frames_of, report_crash.
  destruct (classify (extract_frames interp output)) as [u l].
  cbn [fst snd]. intros ->. cbn [is_empty negb].
  rewrite getitem_first. cbn [bind].
  destruct innermost as [[[frame_num func] file] line].
  rewrite call_chain_spec. cbn [bind]. rewrite system_hint_spec. cbn [bind].
  unfold chain_heading. cbn [entry_func entry_file entry_line].
  now rewrite <- !app_assoc.
Qed.

Lemma report_crash_library (sig output : str) (first : entry) (rest : list entry) :
  user_frames_of interp output = [] ->
  library_frames_of interp output = first :: rest ->
  report_crash interp sig output
  = Return (header sig ++ library_block ++ library_hint_text (first :: rest)
            ++ quick_tips).
Proof.
  unfold user_frames_of, library_frames_of, report_crash.
  destruct (classify (extract_frames interp output)) as [u l].
  cbn [fst snd]. intros -> ->. cbn [is_empty negb bind].
  rewrite library_hint_spec. now rewrite <- !app_assoc.
Qed.

Lemma report_crash_no_frames (sig output : str) :
  user_frames_of interp output = [] ->
  library_frames_of interp output = [] ->
  report_crash interp sig output
  = Return (header sig ++ no_frames_block ++ quick_tips).
Proof.
  unfold user_frames_of, library_frames_of, report_crash.
  destruct (classify (extract_frames interp output)) as [u l].
  cbn [fst snd]. intros -> ->. cbn [is_empty negb bind].
  now rewrite <- !app_assoc.
Qed.

(** The crash report never raises, and it opens with the header. *)
Lemma report_crash_returns (sig output : str) :
  exists body, report_crash interp sig output = Return (header sig ++ body).
Proof.
  destruct (user_frames_of interp output) as [|u us] eqn:Hu.
  - destruct (library_frames_of interp output) as [|l ls] eqn:Hl.
    + eexists. apply report_crash_no_frames; assumption.
    + eexists. eapply report_crash_library; eassumption.
  - eexists. eapply report_crash_user; eassumption.
Qed.

Lemma report_exit_returns (output : str) :
  within_int_limit interp output ->
  exists report, report_exit interp output = Return report.
Proof.
  intros Hlimit. unfold report_exit. destruct (contains _ output); [|now eexists].
  destruct (search (exit_pattern interp) output) as [g|] eqn:Hs;
    [|now eexists].
  destruct (search_exit_group interp _ Hs) as [Hrun Hlen].
  destruct (@int_total interp (group 1 g) Hrun) as [n Hn].
  { destruct Hlimit as [H0 | Hle]; [now left | right]. lia. }
  rewrite Hn. cbn [bind]. destruct (n =? 0)%N; now eexists.
Qed.

End SummarizerReports.

(** ** Exit codes *)

Section ExitCodes.

Variable interp : interpreter.

Lemma match_at_exit_none_inv (s b : str) :
  match_at (exit_pattern interp) s = None ->
  s = exit_marker ++ b -> not_headed_by (is_digit interp) b.
Proof.
  intros H ->. rewrite match_at_exit, drop_prefix_app in H.
  destruct b as [|c b]; [exact I|]. simpl.
  now destruct (is_digit interp c).
Qed.

Lemma search_exit_none_inv (output : str) :
  search (exit_pattern interp) output = None ->
  no_exit_digits (is_digit interp) output.
Proof.
  intros H a. revert output H. induction a as [|x a IH]; intros output H b E.
  - apply (@match_at_exit_none_inv output b); [|exact E].
    destruct output as [|c s].
    + rewrite search_nil in H. now destruct (match_at _ []) as [[g r]|].
    + rewrite search_cons in H. now destruct (match_at _ (c :: s)) as [[g r]|].
  - subst output. cbn [app] in H. rewrite search_cons in H.
    destruct (match_at _ (x :: a ++ exit_marker ++ b)) as [[g r]|];
      [discriminate|].
    now apply (IH _ H b).
Qed.

(** The search of line 106 finds nothing exactly when the marker is nowhere
    followed by a digit. *)
Lemma search_exit_none_iff (output : str) :
  search (exit_pattern interp) output = None <->
  no_exit_digits (is_digit interp) output.
Proof. split; [apply search_exit_none_inv | apply search_exit_none]. Qed.

(** What the search finds is the run of digits after the first marker that
    has one. *)
Lemma search_exit_first_inv (output ds : str) :
  search (exit_pattern interp) output = Some [(1, ds)] ->
  first_exit_digits (is_digit interp) output ds.
Proof.
  induction output as [|c s IH]; intros H.
  - rewrite search_nil, match_at_exit in H. vm_compute in H. discriminate.
  - rewrite search_cons in H.
    destruct (match_at (exit_pattern interp) (c :: s)) as [[g r]|] eqn:Hm.
    + injection H as ->. rewrite match_at_exit in Hm.
      destruct (drop_prefix exit_marker (c :: s)) as [[|d s2]|] eqn:Hp;
        try discriminate.
      destruct (is_digit interp d) eqn:Hd; [|discriminate].
      injection Hm as <- <-. apply drop_prefix_spec in Hp.
      exists [], (snd (span (is_digit interp) s2)).
      repeat split.
      * rewrite Hp. cbn [app]. do 2 f_equal. apply span_app.
      * discriminate.
      * constructor; [exact Hd | apply span_all_in].
      * apply span_rest.
      * simpl. lia.
    + destruct (IH H) as [a [rest [E [Hne [Hds [Hrest Hfirst]]]]]].
      exists (c :: a), rest. repeat split; try assumption.
      * cbn [app]. now rewrite E.
      * intros [|x p] q Hpq Hlen.
        -- now apply (@match_at_exit_none_inv (c :: s) q).
        -- injection Hpq as _ Hpq. apply (Hfirst p q Hpq). simpl in Hlen. lia.
Qed.

End ExitCodes.

(** ** The shape of a frame match *)

Lemma matches_seq_inv (r1 r2 : regex) (m : str) (g g2 : groups) :
  matches (Seq r1 r2) m g g2 ->
  exists m1 m2 g1, m = m1 ++ m2 /\ matches r1 m1 g g1 /\ matches r2 m2 g1 g2.
Proof. inversion 1; subst. now exists m1, m2, g1. Qed.

Lemma matches_lit_inv (l m : str) (g g' : groups) :
  matches (Lit l) m g g' -> m = l /\ g' = g.
Proof. inversion 1; subst. now split. Qed.

Lemma matches_star_inv (greedy : bool) (cls : char -> bool) (m : str) (g g' : groups) :
  matches (Star greedy cls) m g g' -> all_in cls m /\ g' = g.
Proof. inversion 1; subst. now split. Qed.

Lemma matches_plus_inv (greedy : bool) (cls : char -> bool) (m : str) (g g' : groups) :
  matches (Plus greedy cls) m g g' -> run_of cls m /\ g' = g.
Proof.
  unfold Plus. intros H.
  apply matches_seq_inv in H. destruct H as [m1 [m2 [g1 [-> [H1 H2]]]]].
  inversion H1; subst. apply matches_star_inv in H2. destruct H2 as [H2 ->].
  repeat split; [discriminate | now constructor].
Qed.

Lemma matches_group_inv (i : nat) (r : regex) (m : str) (g g' : groups) :
  matches (Group i r) m g g' ->
  exists g1, matches r m g g1 /\ g' = set_group i m g1.
Proof. inversion 1; subst. eexists. split; [eassumption | reflexivity]. Qed.

Lemma matches_opt_inv (r : regex) (m : str) (g g' : groups) :
  matches (Opt r) m g g' -> matches r m g g' \/ (m = [] /\ g' = g).
Proof. inversion 1; subst; [now left | now right]. Qed.

Lemma matches_group_plus_inv (i : nat) (greedy : bool) (cls : char -> bool)
  (m : str) (g g' : groups) :
  matches (Group i (Plus greedy cls)) m g g' ->
  run_of cls m /\ g' = set_group i m g.
Proof.
  intros H. apply matches_group_inv in H. destruct H as [g1 [H ->]].
  apply matches_plus_inv in H. destruct H as [H ->]. now split.
Qed.

Ltac split_seq H m rest g H1 :=
  apply matches_seq_inv in H;
  destruct H as [m [rest [g [-> [H1 H]]]]].

Section FrameShape.

Variable interp : interpreter.

(** Every text that the frame pattern matches is made of the parts of a
    well-formed frame, and the groups of the match are the captured parts. *)
Lemma frame_match_shape (m : str) (g : groups) :
  matches (frame_pattern interp) m [] g ->
  exists p : frame_parts,
    m = frame_text p
    /\ well_formed (is_digit interp) p
    /\ tuple6 g = frame_of_parts p.
Proof.
  intros H. unfold frame_pattern in H. cbn [cat] in H.
  split_seq H hash r0 g0 Hhash. split_seq H num r1 g1 Hnum.
  split_seq H sp1 r2 g2 Hsp1. split_seq H addr r3 g3 Haddr.
  split_seq H sp2 r4 g4 Hsp2. split_seq H kw_in r5 g5 Hin.
  split_seq H sp3 r6 g6 Hsp3. split_seq H func r7 g7 Hfunc.
  split_seq H params r8 g8 Hparams. split_seq H sp4 r9 g9 Hsp4.
  split_seq H lp r10 g10 Hlp. split_seq H args r11 g11 Hargs.
  split_seq H rp r12 g12 Hrp. split_seq H sp5 r13 g13 Hsp5.
  split_seq H kw_at r14 g14 Hat. split_seq H sp6 r15 g15 Hsp6.
  split_seq H file r16 g16 Hfile. split_seq H colon line g17 Hcolon.
  apply matches_lit_inv in Hhash. destruct Hhash as [-> ->].
  apply matches_group_plus_inv in Hnum. destruct Hnum as [Hnum ->].
  apply matches_plus_inv in Hsp1. destruct Hsp1 as [Hsp1 ->].
  assert (Haddr' : (addr = [] /\ g3 = set_group 1 num [])
                   \/ (exists h, addr = py "0x" ++ h /\ run_of is_hex h)
                      /\ g3 = set_group 2 addr (set_group 1 num [])).
  { apply matches_opt_inv in Haddr. destruct Haddr as [Haddr | [-> ->]];
      [right | now left].
    apply matches_group_inv in Haddr. destruct Haddr as [g' [Haddr ->]].
    cbn [cat] in Haddr. split_seq Haddr zx h g'' Hzx.
    apply matches_lit_inv in Hzx. destruct Hzx as [-> ->].
    apply matches_plus_inv in Haddr. destruct Haddr as [Hhex ->].
    split; [now exists h | reflexivity]. }
  clear Haddr.
  apply matches_plus_inv in Hsp2. destruct Hsp2 as [Hsp2 ->].
  apply matches_lit_inv in Hin. destruct Hin as [-> ->].
  apply matches_plus_inv in Hsp3. destruct Hsp3 as [Hsp3 ->].
  apply matches_group_plus_inv in Hfunc. destruct Hfunc as [Hfunc ->].
  assert (Hparams' : (params = [] /\ g8 = set_group 3 func g3)
                     \/ (exists q, params = py "(" ++ q ++ py ")"
                                   /\ all_in not_rparen q)
                        /\ g8 = set_group 4 params (set_group 3 func g3)).
  { apply matches_opt_inv in Hparams. destruct Hparams as [Hparams | [-> ->]];
      [right | now left].
    apply matches_group_inv in Hparams. destruct Hparams as [g' [Hparams ->]].
    cbn [cat] in Hparams. split_seq Hparams lp' rq ga Hlp'.
    split_seq Hparams q rp' gb Hq.
    apply matches_lit_inv in Hlp'. destruct Hlp' as [-> ->].
    apply matches_star_inv in Hq. destruct Hq as [Hq ->].
    apply matches_lit_inv in Hparams. destruct Hparams as [-> ->].
    split; [now exists q | reflexivity]. }
  clear Hparams.
  apply matches_plus_inv in Hsp4. destruct Hsp4 as [Hsp4 ->].
  apply matches_lit_inv in Hlp. destruct Hlp as [-> ->].
  apply matches_star_inv in Hargs. destruct Hargs as [Hargs ->].
  apply matches_lit_inv in Hrp. destruct Hrp as [-> ->].
  apply matches_plus_inv in Hsp5. destruct Hsp5 as [Hsp5 ->].
  apply matches_lit_inv in Hat. destruct Hat as [-> ->].
  apply matches_plus_inv in Hsp6. destruct Hsp6 as [Hsp6 ->].
  apply matches_group_plus_inv in Hfile. destruct Hfile as [Hfile ->].
  apply matches_lit_inv in Hcolon. destruct Hcolon as [-> ->].
  apply matches_group_plus_inv in H. destruct H as [Hline ->].
  exists (mk_frame_parts num sp1 addr sp2 sp3 func params sp4 args sp5 sp6 file line).
  split; [reflexivity|]. split.
  - unfold well_formed.
    cbn [p_num p_sp1 p_addr p_sp2 p_sp3 p_func p_params p_sp4 p_args p_sp5
         p_sp6 p_file p_line].
    split; [exact Hnum|]. split; [exact Hsp1|].
    split; [destruct Haddr' as [[-> _] | [Hh _]]; [now left | now right]|].
    split; [exact Hsp2|]. split; [exact Hsp3|]. split; [exact Hfunc|].
    split; [destruct Hparams' as [[-> _] | [Hq _]]; [now left | now right]|].
    split; [exact Hsp4|]. split; [exact Hargs|]. split; [exact Hsp5|].
    split; [exact Hsp6|]. split; [exact Hfile | exact Hline].
  - unfold tuple6, frame_of_parts. cbn [p_num p_addr p_func p_params p_file p_line].
    destruct Haddr' as [[-> ->] | [_ ->]]; destruct Hparams' as [[-> ->] | [_ ->]];
      reflexivity.
Qed.

End FrameShape.

(** ** Frames with and without a location *)

Lemma all_in_impl (cls cls' : char -> bool) (s : str) :
  (forall c, cls c = true -> cls' c = true) -> all_in cls s -> all_in cls' s.
Proof. intros H. apply Forall_impl. exact H. Qed.

Lemma all_in_app (cls : char -> bool) (s t : str) :
  all_in cls s -> all_in cls t -> all_in cls (s ++ t).
Proof. intros Hs Ht. apply Forall_app. now split. Qed.



Lemma findall_skip (r : regex) (c : char) (s : str) :
  match_at r (c :: s) = None -> findall r (c :: s) = findall r s.
Proof. intros H. unfold findall. cbn [scan]. now rewrite H. Qed.

Section FrameLocation.

Variable interp : interpreter.






(** A match of the frame pattern is never empty, which is what the scan of
    [findall] relies on. *)
Lemma frame_match_consumes (s rest : str) (g : groups) :
  match_at (frame_pattern interp) s = Some (g, rest) -> length rest < length s.
Proof.
  intros H. apply match_at_sound in H. destruct H as [m [-> Hm]].
  apply frame_match_shape in Hm. destruct Hm as [p [-> _]].
  unfold frame_text. rewrite length_app. change (py "#") with [35%N].
  simpl. lia.
Qed.

End FrameLocation.

(** ** The invoker *)



(** What is no [Exception], an interrupt from the keyboard for one, is not
    handled by [run_gdb]. *)
Lemma run_gdb_propagates
  (subprocess_run : list str -> option N -> str -> outcome completed_process)
  (cmd : list str) (timeout : option N) (e : exception) :
  subprocess_run (launch_command cmd) timeout canned_answer = Raise e ->
  isinstance e Exception = false ->
  run_gdb subprocess_run cmd timeout = Raise e.
Proof.
  intros H Hexc. unfold run_gdb. rewrite H. cbn [bind try_except handle].
  destruct e as [c text]. destruct c; try discriminate; reflexivity.
Qed.

(** * The claims *)

Section Claims.

Variable interp : interpreter.

(** C1, as amended. The summarizer sorts the extracted frames, in order, into
    the library list and the user list, and a frame goes to the library list
    exactly when its path starts with "/usr" or "/lib", or holds one of the
    runtime fragments, or holds the shared-library extension ".so" anywhere,
    or its function name starts with one of the four internal prefixes;
    every other frame goes to the user list. *)
Theorem library_classification_rule (output : str) :
  library_frames_of interp output
  = map entry_of (filter frame_is_library (extract_frames interp output))
  /\ user_frames_of interp output
     = map entry_of (filter (fun fr => negb (frame_is_library fr))
                       (extract_frames interp output))
  /\ forall fr : frame,
       frame_is_library fr = true <-> library_rule (frame_func fr) (frame_file fr).
Proof.
  unfold library_frames_of, user_frames_of. rewrite classify_partition.
  split; [reflexivity | split; [reflexivity|]].
  intros fr. apply is_library_rule.
Qed.

(** C2, as amended. When a signal is detected and user frames were found, the
    report names the file, line and function of the innermost (first) user
    frame as the problem; under the chain heading it shows, when there are two
    or more user frames, the outermost frame as the start, up to three frames
    walking inward from it, and the innermost frame as the place of the crash,
    and nothing when there is a single user frame; a hint on the function of
    the first library frame follows when there is one. *)
Theorem user_frame_report (output sig : str) (innermost : entry) (rest : list entry) :
  detect_signal FRIENDLY_SIGNALS output = Some sig ->
  user_frames_of interp output = innermost :: rest ->
  parse_gdb_output interp output
  = Return (header sig
            ++ problem_block (entry_func innermost) (entry_file innermost)
                 (entry_line innermost)
            ++ chain_heading
            ++ chain_text (innermost :: rest)
            ++ system_hint_text (library_frames_of interp output)
            ++ quick_tips)
  /\ (rest = [] -> chain_text (innermost :: rest) = []).
Proof.
  intros Hsig Huser. split.
  - rewrite (@parse_signal interp output sig Hsig).
    now apply report_crash_user.
  - now intros ->.
Qed.

(** C3, as amended. On the text of the end-to-end example the report opens
    with the explanation of the segmentation fault, and its problem section
    names the file /home/user/app.c, the line 10 and the function crash_func,
    without the parentheses of the frame line. *)
Theorem example_report :
  parse_gdb_output interp example_input
  = Return (NL ++ py "🔍 🛑 Segmentation fault (tried to access memory that doesn't belong to you)"
            ++ NL ++ NL
            ++ py "🎯 **The problem is likely here:**" ++ NL
            ++ py "   📁 File: /home/user/app.c" ++ NL
            ++ py "   📄 Line: 10" ++ NL
            ++ py "   🔧 Function: crash_func" ++ NL ++ NL
            ++ chain_heading
            ++ py "   1. main (started here)" ++ NL
            ++ py "   2. crash_func" ++ NL
            ++ py "   → crash_func (crashed here)" ++ NL
            ++ quick_tips).
Proof.
  assert (Hsig : detect_signal FRIENDLY_SIGNALS example_input = Some (py "SIGSEGV"))
    by (vm_compute; reflexivity).
  assert (Huser : user_frames_of interp example_input
                  = [ (py "0", py "crash_func", py "/home/user/app.c", py "10");
                      (py "1", py "main", py "/home/user/app.c", py "15") ])
    by (vm_compute; reflexivity).
  rewrite (@parse_signal interp example_input _ Hsig).
  rewrite (@report_crash_user interp _ _ _ _ Huser).
  apply f_equal. vm_compute. reflexivity.
Qed.

(** C4. On every text the summarizer detects at most one signal: a name is
    detected exactly when it occurs in the text as a substring, anywhere and
    next to anything, while no name before it in the order SIGSEGV, SIGABRT,
    SIGFPE, SIGILL, SIGBUS, SIGTRAP, SIGSYS occurs; none is detected exactly
    when no name occurs; and the report is the crash report for the detected
    name. *)
Theorem first_signal_detected (output : str) :
  (forall sig,
      detect_signal FRIENDLY_SIGNALS output = Some sig <->
      exists earlier later,
        signal_names = earlier ++ sig :: later
        /\ substring_of sig output
        /\ Forall (fun name => ~ substring_of name output) earlier)
  /\ (detect_signal FRIENDLY_SIGNALS output = None <-> signal_free output)
  /\ (forall sig,
         detect_signal FRIENDLY_SIGNALS output = Some sig ->
         parse_gdb_output interp output
         = report_crash interp sig output).
Proof.
  split; [|split].
  - intros sig. rewrite <- signal_names_keys. apply detect_signal_first.
  - apply detect_signal_free.
  - intros sig. apply parse_signal.
Qed.

(** C5, as amended. A text without a signal name, in which the first
    "exited with code " that is followed by a digit is followed by a run of
    digits that reads as the number 0, gets the success report. *)
Theorem first_exit_code_zero (output ds : str) :
  signal_free output ->
  first_exit_digits (is_digit interp) output ds ->
  int interp ds = Return 0%N ->
  parse_gdb_output interp output = Return success_message.
Proof.
  intros Hfree Hfirst Hzero.
  assert (Hsub : contains (py "exited with code") output = true).
  { destruct Hfirst as [a [rest [-> _]]]. apply contains_spec.
    exists a, (py " " ++ ds ++ rest).
    change exit_marker with (py "exited with code" ++ py " ").
    now rewrite <- !app_assoc. }
  assert (Hne : output <> []).
  { intros ->. vm_compute in Hsub. discriminate. }
  rewrite (@parse_no_signal interp output Hne Hfree). unfold report_exit.
  rewrite Hsub, (@search_exit_first interp output ds Hfirst).
  cbn [group Nat.eqb]. rewrite Hzero. reflexivity.
Qed.

(** C6, as amended. When a signal is detected and only library frames were
    found, the report gives the general explanation of a crash in a system
    library and at most one concrete hint: the function, file and line of the
    first library frame whose function text holds none of "std::", "__GI_"
    and "__libc_" anywhere; no hint when every library frame holds one. *)
Theorem library_only_report (output sig : str) (first : entry) (rest : list entry) :
  detect_signal FRIENDLY_SIGNALS output = Some sig ->
  user_frames_of interp output = [] ->
  library_frames_of interp output = first :: rest ->
  parse_gdb_output interp output
  = Return (header sig ++ library_block ++ library_hint_text (first :: rest)
            ++ quick_tips).
Proof.
  intros Hsig Huser Hlib.
  rewrite (@parse_signal interp output sig Hsig).
  now apply report_crash_library.
Qed.



(** C9. A detected signal is a key of [FRIENDLY_SIGNALS]: the lookup of line
    140 finds its explanation, never the fallback text, and the report opens
    with that explanation. *)
Theorem detected_signal_header (output sig : str) :
  detect_signal FRIENDLY_SIGNALS output = Some sig ->
  exists desc body,
    In (sig, desc) FRIENDLY_SIGNALS
    /\ dict_get FRIENDLY_SIGNALS sig (py "Unknown error happened!") = desc
    /\ desc <> py "Unknown error happened!"
    /\ parse_gdb_output interp output
       = Return (NL ++ py "🔍 " ++ desc ++ NL ++ NL ++ body).
Proof.
  intros H. rewrite (@parse_signal interp output sig H).
  destruct (report_crash_returns interp sig output) as [body ->].
  apply detect_signal_key in H. rewrite signal_names_keys in H.
  unfold header.
  assert (Hdesc : forall desc,
             In (sig, desc) FRIENDLY_SIGNALS ->
             dict_get FRIENDLY_SIGNALS sig (py "Unknown error happened!") = desc ->
             desc <> py "Unknown error happened!" ->
             exists desc0 body0,
               In (sig, desc0) FRIENDLY_SIGNALS
               /\ dict_get FRIENDLY_SIGNALS sig (py "Unknown error happened!") = desc0
               /\ desc0 <> py "Unknown error happened!"
               /\ Return ((NL ++ py "🔍 "
                           ++ dict_get FRIENDLY_SIGNALS sig (py "Unknown error happened!")
                           ++ NL ++ NL) ++ body)
                  = Return (NL ++ py "🔍 " ++ desc0 ++ NL ++ NL ++ body0)).
  { intros desc Hin Hget Hne. exists desc, body. rewrite Hget.
    repeat split; try assumption. now rewrite <- !app_assoc. }
  unfold signal_names in H. cbn [In] in H.
  destruct H as [<- | [<- | [<- | [<- | [<- | [<- | [<- | []]]]]]]];
    eapply Hdesc;
    try (vm_compute; reflexivity);
    try (intros E; vm_compute in E; discriminate);
    unfold FRIENDLY_SIGNALS; cbn [In]; tauto.
Qed.

(** C10. A text without a signal name that holds "exited with code" but
    nowhere "exited with code " followed by a digit gets the report that no
    crash was detected. *)
Theorem exit_marker_without_digits (output : str) :
  signal_free output ->
  substring_of (py "exited with code") output ->
  no_exit_digits (is_digit interp) output ->
  parse_gdb_output interp output = Return no_crash_message.
Proof.
  intros Hfree Hsub Hnone.
  assert (Hne : output <> []).
  { intros ->. apply contains_spec in Hsub. vm_compute in Hsub. discriminate. }
  rewrite (@parse_no_signal interp output Hne Hfree). unfold report_exit.
  apply contains_spec in Hsub. rewrite Hsub.
  now rewrite (@search_exit_none interp output Hnone).
Qed.

End Claims.

(** ** Instances and counterexamples *)

(** C1 as stated fails: the frame of [plugin_input] goes to the library list,
    while its path neither starts under a root, nor holds a runtime fragment,
    nor ends with the shared-library extension, and its function name starts
    with no internal prefix.  The path holds ".so" in the middle. *)
Lemma extension_inside_path_is_library :
  extract_frames plain_interpreter plugin_input
  = [ (py "0", py "0x0000000000401136", py "render_hook", [],
       py "/home/user/plugin.so.d/hook.c", py "12") ]
  /\ library_frames_of plain_interpreter plugin_input
     = [ (py "0", py "render_hook", py "/home/user/plugin.so.d/hook.c", py "12") ]
  /\ user_frames_of plain_interpreter plugin_input = []
  /\ ~ Exists (fun root => prefix_of root (py "/home/user/plugin.so.d/hook.c"))
         library_roots
  /\ ~ Exists (fun fragment =>
                 substring_of fragment (py "/home/user/plugin.so.d/hook.c"))
         runtime_fragments
  /\ endswith (py "/home/user/plugin.so.d/hook.c") shared_library_extension = false
  /\ ~ Exists (fun p => prefix_of p (py "render_hook")) internal_prefixes.
Proof.
  split; [vm_compute; reflexivity|].
  split; [vm_compute; reflexivity|].
  split; [vm_compute; reflexivity|].
  split; [rewrite Exists_prefix_of; vm_compute; discriminate|].
  split; [rewrite Exists_substring_of; vm_compute; discriminate|].
  split; [vm_compute; reflexivity|].
  rewrite Exists_prefix_of. vm_compute. discriminate.
Qed.

(** C2 on the text of the end-to-end example, which has two user frames. *)
Lemma user_frame_report_witness :
  detect_signal FRIENDLY_SIGNALS example_input = Some (py "SIGSEGV")
  /\ user_frames_of plain_interpreter example_input
     = [ (py "0", py "crash_func", py "/home/user/app.c", py "10");
         (py "1", py "main", py "/home/user/app.c", py "15") ]
  /\ parse_gdb_output plain_interpreter example_input
     = Return (header (py "SIGSEGV")
               ++ problem_block (py "crash_func") (py "/home/user/app.c") (py "10")
               ++ chain_heading
               ++ chain_text [ (py "0", py "crash_func", py "/home/user/app.c", py "10");
                               (py "1", py "main", py "/home/user/app.c", py "15") ]
               ++ system_hint_text (library_frames_of plain_interpreter example_input)
               ++ quick_tips).
Proof.
  assert (Hsig : detect_signal FRIENDLY_SIGNALS example_input = Some (py "SIGSEGV"))
    by (vm_compute; reflexivity).
  assert (Huser : user_frames_of plain_interpreter example_input
                  = [ (py "0", py "crash_func", py "/home/user/app.c", py "10");
                      (py "1", py "main", py "/home/user/app.c", py "15") ])
    by (vm_compute; reflexivity).
  split; [exact Hsig | split; [exact Huser|]].
  exact (proj1 (@user_frame_report plain_interpreter example_input (py "SIGSEGV")
                  _ _ Hsig Huser)).
Defined.

(** C2 as stated fails on a single user frame: the report shows the chain
    heading and no chain, neither a start nor a place of the crash. *)
Lemma single_user_frame_without_chain :
  detect_signal FRIENDLY_SIGNALS single_frame_input = Some (py "SIGSEGV")
  /\ user_frames_of plain_interpreter single_frame_input
     = [ (py "0", py "main", py "/home/user/app.c", py "7") ]
  /\ exists report,
       parse_gdb_output plain_interpreter single_frame_input = Return report
       /\ substring_of chain_heading report
       /\ ~ substring_of (py "(started here)") report
       /\ ~ substring_of (py "(crashed here)") report.
Proof.
  split; [vm_compute; reflexivity|].
  split; [vm_compute; reflexivity|].
  eexists. split; [vm_compute; reflexivity|].
  split; [apply contains_spec; vm_compute; reflexivity|].
  split; apply contains_false; vm_compute; reflexivity.
Qed.

(** C3 as stated fails in its last part: the function line of the report
    reads "crash_func", and the text "crash_func ()" is nowhere in the
    report. *)
Lemma example_function_without_parentheses :
  exists report,
    parse_gdb_output plain_interpreter example_input = Return report
    /\ substring_of (py "   🔧 Function: crash_func" ++ NL) report
    /\ ~ substring_of (py "crash_func ()") report.
Proof.
  eexists. split; [vm_compute; reflexivity|].
  split; [apply contains_spec | apply contains_false]; vm_compute; reflexivity.
Qed.

(** C4 on a text that holds two signal names inside longer words: the name
    that comes first in the enumeration is detected, not the one that comes
    first in the text. *)
Example signal_inside_words :
  detect_signal FRIENDLY_SIGNALS (py "MYSIGFPEHANDLER saw SIGSEGV_count")
  = Some (py "SIGSEGV").
Proof. vm_compute. reflexivity. Qed.

(** C5 as amended, on an exit line with the code 00. *)
Lemma first_exit_code_zero_witness :
  signal_free zero_exit_input
  /\ first_exit_digits (is_digit plain_interpreter) zero_exit_input (py "00")
  /\ int plain_interpreter (py "00") = Return 0%N
  /\ parse_gdb_output plain_interpreter zero_exit_input = Return success_message.
Proof.
  assert (Hfree : signal_free zero_exit_input)
    by (apply detect_signal_free; vm_compute; reflexivity).
  assert (Hfirst : first_exit_digits (is_digit plain_interpreter) zero_exit_input (py "00"))
    by (apply search_exit_first_inv; vm_compute; reflexivity).
  assert (Hzero : int plain_interpreter (py "00") = Return 0%N)
    by (vm_compute; reflexivity).
  split; [exact Hfree | split; [exact Hfirst | split; [exact Hzero|]]].
  exact (@first_exit_code_zero plain_interpreter zero_exit_input (py "00")
           Hfree Hfirst Hzero).
Defined.

(** C5 as stated fails twice over.  A text that holds "exited with code 0"
    and a signal name gets a crash report; and the line gdb prints for exit
    status 1, "exited with code 01", holds "exited with code 0" and gets the
    report of error code 1. *)
Lemma exit_zero_text_without_success :
  (substring_of (py "exited with code 0") signal_and_exit_input
   /\ parse_gdb_output plain_interpreter signal_and_exit_input
      = report_crash plain_interpreter (py "SIGSEGV") signal_and_exit_input
   /\ parse_gdb_output plain_interpreter signal_and_exit_input
      <> Return success_message)
  /\ (substring_of (py "exited with code 0") octal_exit_input
      /\ signal_free octal_exit_input
      /\ parse_gdb_output plain_interpreter octal_exit_input
         = Return (error_exit_message 1)
      /\ parse_gdb_output plain_interpreter octal_exit_input
         <> Return success_message).
Proof.
  split; [split; [|split] | split; [|split; [|split]]].
  - apply contains_spec. vm_compute. reflexivity.
  - vm_compute. reflexivity.
  - intros E. vm_compute in E. discriminate.
  - apply contains_spec. vm_compute. reflexivity.
  - apply detect_signal_free. vm_compute. reflexivity.
  - vm_compute. reflexivity.
  - intros E. vm_compute in E. discriminate.
Qed.

(** C6 as amended, on an abort inside the C library: the hint names
    [malloc_printerr], the first frame without an internal term. *)
Lemma library_only_report_witness :
  detect_signal FRIENDLY_SIGNALS abort_input = Some (py "SIGABRT")
  /\ user_frames_of plain_interpreter abort_input = []
  /\ library_frames_of plain_interpreter abort_input
     = [ (py "0", py "__GI_raise", py "../sysdeps/unix/sysv/linux/raise.c", py "50");
         (py "1", py "__GI_abort", py "abort.c", py "79");
         (py "2", py "malloc_printerr", py "malloc.c", py "5347") ]
  /\ parse_gdb_output plain_interpreter abort_input
     = Return (header (py "SIGABRT") ++ library_block
               ++ library_hint_text
                    [ (py "0", py "__GI_raise", py "../sysdeps/unix/sysv/linux/raise.c",
                       py "50");
                      (py "1", py "__GI_abort", py "abort.c", py "79");
                      (py "2", py "malloc_printerr", py "malloc.c", py "5347") ]
               ++ quick_tips).
Proof.
  assert (Hsig : detect_signal FRIENDLY_SIGNALS abort_input = Some (py "SIGABRT"))
    by (vm_compute; reflexivity).
  assert (Huser : user_frames_of plain_interpreter abort_input = [])
    by (vm_compute; reflexivity).
  assert (Hlib : library_frames_of plain_interpreter abort_input
                 = [ (py "0", py "__GI_raise", py "../sysdeps/unix/sysv/linux/raise.c",
                      py "50");
                     (py "1", py "__GI_abort", py "abort.c", py "79");
                     (py "2", py "malloc_printerr", py "malloc.c", py "5347") ])
    by (vm_compute; reflexivity).
  split; [exact Hsig | split; [exact Huser | split; [exact Hlib|]]].
  exact (@library_only_report plain_interpreter abort_input (py "SIGABRT") _ _
           Hsig Huser Hlib).
Defined.

(** C6 as stated fails: the first library frame of [template_input] has a
    function name that starts with none of the internal terms, yet the hint
    passes it over, because the name holds "std::" further on, and names the
    second frame. *)
Lemma library_hint_skips_inner_term :
  detect_signal FRIENDLY_SIGNALS template_input = Some (py "SIGSEGV")
  /\ user_frames_of plain_interpreter template_input = []
  /\ library_frames_of plain_interpreter template_input
     = [ (py "0", py "Wrapper<std::string>::get", py "/usr/include/wrapper.h", py "31");
         (py "1", py "helper_call", py "/usr/lib/helper.c", py "7") ]
  /\ existsb (startswith (py "Wrapper<std::string>::get")) internal_terms = false
  /\ exists report,
       parse_gdb_output plain_interpreter template_input = Return report
       /\ substring_of
            (py "🔍 **Look at this code:** helper_call at /usr/lib/helper.c:7" ++ NL)
            report
       /\ ~ substring_of (py "**Look at this code:** Wrapper") report.
Proof.
  split; [vm_compute; reflexivity|].
  split; [vm_compute; reflexivity|].
  split; [vm_compute; reflexivity|].
  split; [vm_compute; reflexivity|].
  eexists. split; [vm_compute; reflexivity|].
  split; [apply contains_spec | apply contains_false]; vm_compute; reflexivity.
Qed.




(** C9 on the text of the end-to-end example. *)
Lemma detected_signal_header_witness :
  detect_signal FRIENDLY_SIGNALS example_input = Some (py "SIGSEGV")
  /\ exists desc body,
       In (py "SIGSEGV", desc) FRIENDLY_SIGNALS
       /\ dict_get FRIENDLY_SIGNALS (py "SIGSEGV") (py "Unknown error happened!") = desc
       /\ desc <> py "Unknown error happened!"
       /\ parse_gdb_output plain_interpreter example_input
          = Return (NL ++ py "🔍 " ++ desc ++ NL ++ NL ++ body).
Proof.
  assert (H : detect_signal FRIENDLY_SIGNALS example_input = Some (py "SIGSEGV"))
    by (vm_compute; reflexivity).
  split; [exact H|].
  exact (@detected_signal_header plain_interpreter example_input (py "SIGSEGV") H).
Defined.

(** C10 on an exit line with a negative code. *)
Lemma exit_marker_without_digits_witness :
  signal_free negative_exit_input
  /\ substring_of (py "exited with code") negative_exit_input
  /\ no_exit_digits (is_digit plain_interpreter) negative_exit_input
  /\ parse_gdb_output plain_interpreter negative_exit_input = Return no_crash_message.
Proof.
  assert (Hfree : signal_free negative_exit_input)
    by (apply detect_signal_free; vm_compute; reflexivity).
  assert (Hsub : substring_of (py "exited with code") negative_exit_input)
    by (apply contains_spec; vm_compute; reflexivity).
  assert (Hnone : no_exit_digits (is_digit plain_interpreter) negative_exit_input)
    by (apply search_exit_none_inv; vm_compute; reflexivity).
  split; [exact Hfree | split; [exact Hsub | split; [exact Hnone|]]].
  exact (@exit_marker_without_digits plain_interpreter negative_exit_input
           Hfree Hsub Hnone).
Defined.

(** * Further properties of the summarizer and the invoker *)




(** ** The summarizer, further *)

Lemma Return_inj (A : Type) (a b : A) : Return a = Return b -> a = b.
Proof. intros E. now injection E. Qed.

Lemma error_exit_is_no_other_report (code : N) :
  error_exit_message code <> no_crash_message.
Proof.
  intros E. apply (f_equal (@hd char 0%N)) in E. vm_compute in E. discriminate.
Qed.

Lemma success_is_no_other_report : success_message <> no_crash_message.
Proof. intros E. vm_compute in E. discriminate. Qed.

Section FurtherSummarizer.

Variable interp : interpreter.

(** The search of line 106 fills the one group of the pattern. *)
Lemma search_exit_shape (s : str) (g : groups) :
  search (exit_pattern interp) s = Some g -> g = [(1, group 1 g)].
Proof.
  induction s as [|c s IH]; intros H.
  - rewrite search_nil, match_at_exit in H. vm_compute in H. discriminate.
  - rewrite search_cons, match_at_exit in H.
    destruct (drop_prefix exit_marker (c :: s)) as [[|d s2]|]; try now apply IH.
    destruct (is_digit interp d); [|now apply IH].
    injection H as <-. reflexivity.
Qed.

(** [int] refuses a run of digits for its length only, with [ValueError]. *)
Lemma int_raises (s : str) (e : exception) :
  run_of (is_digit interp) s ->
  int interp s = Raise e ->
  exc_type e = ValueError
  /\ (0 < int_max_str_digits interp)%N
  /\ (int_max_str_digits interp < N.of_nat (length s))%N.
Proof.
  intros [Hne Hs] H. unfold int in H.
  destruct s as [|c s]; [contradiction|]. cbn [is_empty] in H.
  destruct ((0 <? int_max_str_digits interp)
            && (int_max_str_digits interp <? N.of_nat (length (c :: s))))%N eqn:Hlim.
  - injection H as <-. apply andb_true_iff in Hlim. destruct Hlim as [H0 H1].
    apply N.ltb_lt in H0. apply N.ltb_lt in H1. now repeat split.
  - destruct (@int_digits_total interp (c :: s) 0%N Hs) as [n Hn].
    rewrite Hn in H. discriminate.
Qed.

Lemma int_over_limit (s : str) :
  s <> [] ->
  (0 < int_max_str_digits interp)%N ->
  (int_max_str_digits interp < N.of_nat (length s))%N ->
  exists e, int interp s = Raise e /\ exc_type e = ValueError.
Proof.
  intros Hne H0 H1. unfold int. destruct s as [|c s]; [contradiction|].
  cbn [is_empty]. apply N.ltb_lt in H0. apply N.ltb_lt in H1. rewrite H0, H1.
  cbn [andb]. eexists. split; reflexivity.
Qed.

Lemma marker_occurs (output ds : str) :
  first_exit_digits (is_digit interp) output ds ->
  contains (py "exited with code") output = true /\ output <> [].
Proof.
  intros [a [rest [-> _]]].
  assert (Hsub : contains (py "exited with code")
                   (a ++ exit_marker ++ ds ++ rest) = true).
  { apply contains_spec. exists a, (py " " ++ ds ++ rest).
    change exit_marker with (py "exited with code" ++ py " ").
    now rewrite <- !app_assoc. }
  split; [exact Hsub|]. intros E. rewrite E in Hsub. vm_compute in Hsub.
  discriminate.
Qed.

(** X1. A text that is not empty and holds no signal name gets the report
    that no crash was detected exactly when "exited with code " is nowhere
    followed by a digit; so it does whenever it lacks the words "exited with
    code", as the line that gdb prints for a normal exit does. *)
Theorem no_crash_report_iff (output : str) :
  output <> [] -> signal_free output ->
  (parse_gdb_output interp output = Return no_crash_message
   <-> no_exit_digits (is_digit interp) output)
  /\ (~ substring_of (py "exited with code") output ->
      parse_gdb_output interp output = Return no_crash_message).
Proof.
  intros Hne Hfree.
  rewrite (@parse_no_signal interp output Hne Hfree). unfold report_exit.
  destruct (contains (py "exited with code") output) eqn:Hsub.
  - split.
    + destruct (search (exit_pattern interp) output) as [g|] eqn:Hs.
      * split.
        -- destruct (int interp (group 1 g)) as [code|e]; cbn [bind];
             [|discriminate].
           destruct (code =? 0)%N; intros E; apply Return_inj in E.
           ++ now apply success_is_no_other_report in E.
           ++ now apply error_exit_is_no_other_report in E.
        -- intros Hnone. apply search_exit_none in Hnone. congruence.
      * split; [intros _; now apply search_exit_none_inv | reflexivity].
    + intros Hnot. apply contains_false in Hnot. congruence.
  - split; [|reflexivity]. split; [intros _ | reflexivity].
    intros a b E. exfalso. apply contains_false in Hsub. apply Hsub.
    exists a, (py " " ++ b). rewrite E.
    change exit_marker with (py "exited with code" ++ py " ").
    now rewrite <- !app_assoc.
Qed.

(** X2. A text without a signal name, in which the first "exited with
    code " that is followed by a digit is followed by a run of digits that
    reads as a number other than 0, gets the report of an exit with that
    error code. *)
Theorem first_exit_code_nonzero (output ds : str) (n : N) :
  signal_free output ->
  first_exit_digits (is_digit interp) output ds ->
  int interp ds = Return n -> n <> 0%N ->
  parse_gdb_output interp output = Return (error_exit_message n).
Proof.
  intros Hfree Hfirst Hn Hnz.
  destruct (@marker_occurs output ds Hfirst) as [Hsub Hne].
  rewrite (@parse_no_signal interp output Hne Hfree). unfold report_exit.
  rewrite Hsub, (@search_exit_first interp output ds Hfirst).
  cbn [group Nat.eqb]. rewrite Hn. cbn [bind].
  apply N.eqb_neq in Hnz. now rewrite Hnz.
Qed.

(** X3. When the interpreter limits the digits that [int] converts, a text
    without a signal name whose first exit code has more digits than the
    limit makes the summarizer raise [ValueError] instead of returning a
    report. *)
Theorem oversized_exit_code_raises (output ds : str) :
  signal_free output ->
  first_exit_digits (is_digit interp) output ds ->
  (0 < int_max_str_digits interp)%N ->
  (int_max_str_digits interp < N.of_nat (length ds))%N ->
  exists e, parse_gdb_output interp output = Raise e /\ exc_type e = ValueError.
Proof.
  intros Hfree Hfirst H0 H1.
  destruct (@marker_occurs output ds Hfirst) as [Hsub Hne].
  rewrite (@parse_no_signal interp output Hne Hfree). unfold report_exit.
  rewrite Hsub, (@search_exit_first interp output ds Hfirst).
  cbn [group Nat.eqb].
  assert (Hds : ds <> []) by (destruct Hfirst as [a [rest [_ [Hds _]]]]; exact Hds).
  destruct (@int_over_limit ds Hds H0 H1) as [e [-> He]].
  now exists e.
Qed.

(** X4. The summarizer returns a report, whatever the text, when the
    interpreter sets no limit on integer conversion or the text is no longer
    than the limit: no index of lines 143 to 158 is out of range, and the
    conversion of line 108 succeeds. *)
Theorem parse_gdb_output_returns (output : str) :
  within_int_limit interp output ->
  exists report, parse_gdb_output interp output = Return report.
Proof.
  intros Hlimit.
  unfold parse_gdb_output. destruct (is_empty output); [now eexists|].
  destruct (detect_signal FRIENDLY_SIGNALS output) as [sig|].
  - destruct (is_empty sig); [now apply report_exit_returns|].
    destruct (report_crash_returns interp sig output) as [body ->]. now eexists.
  - now apply report_exit_returns.
Qed.

(** The search for an exit code raises only when the conversion refuses the
    length of the first exit code. *)
Lemma report_exit_raises (output : str) (e : exception) :
  report_exit interp output = Raise e ->
  exc_type e = ValueError
  /\ exists ds,
       first_exit_digits (is_digit interp) output ds
       /\ (0 < int_max_str_digits interp)%N
       /\ (int_max_str_digits interp < N.of_nat (length ds))%N.
Proof.
  unfold report_exit.
  destruct (contains (py "exited with code") output); [|discriminate].
  destruct (search (exit_pattern interp) output) as [g|] eqn:Hs; [|discriminate].
  pose proof (@search_exit_group interp output g Hs) as [Hrun _].
  apply search_exit_shape in Hs as Hg. rewrite Hg in Hs.
  apply search_exit_first_inv in Hs.
  destruct (int interp (group 1 g)) as [code|e'] eqn:Hint; cbn [bind].
  - destruct (code =? 0)%N; discriminate.
  - intros E. injection E as ->.
    destruct (@int_raises (group 1 g) e Hrun Hint) as [He [H0 H1]].
    split; [exact He|]. now exists (group 1 g).
Qed.

Lemma parse_raises_exit (output : str) (e : exception) :
  parse_gdb_output interp output = Raise e ->
  signal_free output /\ report_exit interp output = Raise e.
Proof.
  intros H. unfold parse_gdb_output in H.
  destruct (is_empty output); [discriminate|].
  destruct (detect_signal FRIENDLY_SIGNALS output) as [sig|] eqn:Hsig.
  - exfalso. destruct (is_empty sig) eqn:Hsig'.
    + apply detect_signal_key in Hsig. rewrite signal_names_keys in Hsig.
      apply signal_names_not_empty in Hsig. congruence.
    + destruct (report_crash_returns interp sig output) as [body Hb].
      rewrite Hb in H. discriminate.
  - apply detect_signal_free in Hsig. now split.
Qed.

(** X5. The one exception that leaves the summarizer is the [ValueError] of
    the integer conversion: it is raised only on a text without a signal name
    whose first exit code is longer than the interpreter's limit. *)
Theorem summarizer_raises_only_over_limit (output : str) (e : exception) :
  parse_gdb_output interp output = Raise e ->
  exc_type e = ValueError
  /\ signal_free output
  /\ exists ds,
       first_exit_digits (is_digit interp) output ds
       /\ (0 < int_max_str_digits interp)%N
       /\ (int_max_str_digits interp < N.of_nat (length ds))%N.
Proof.
  intros H. apply parse_raises_exit in H. destruct H as [Hfree H].
  apply report_exit_raises in H. destruct H as [He Hds]. now repeat split.
Qed.

(** X6. When a signal is detected and the frame pattern finds nothing in
    the text, the report is the explanation of the signal, the advice to
    compile with debug information, and the quick tips. *)
Theorem no_frames_report (output sig : str) :
  detect_signal FRIENDLY_SIGNALS output = Some sig ->
  extract_frames interp output = [] ->
  parse_gdb_output interp output
  = Return (header sig ++ no_frames_block ++ quick_tips).
Proof.
  intros Hsig Hnone. rewrite (@parse_signal interp output sig Hsig).
  apply report_crash_no_frames.
  - unfold user_frames_of. now rewrite Hnone.
  - unfold library_frames_of. now rewrite Hnone.
Qed.

End FurtherSummarizer.

(** ** The call chain, the invoker and frames without an address *)

Lemma chain_steps_app (number : nat) (inward : list entry) (x : entry) :
  chain_steps number (inward ++ [x])
  = chain_steps number inward
    ++ py "   " ++ str_of_int (N.of_nat (number + length inward)) ++ py ". "
    ++ entry_func x ++ NL.
Proof.
  revert number; induction inward as [|y inward IH]; intros number.
  - cbn [app chain_steps length]. rewrite Nat.add_0_r, app_nil_r.
    reflexivity.
  - cbn [app chain_steps length]. rewrite IH, <- ?app_assoc.
    now replace (S number + length inward) with (number + S (length inward)) by lia.
Qed.

Lemma rev_outermost (innermost : entry) (rest : list entry) :
  rest <> [] ->
  rev (innermost :: rest)
  = last rest innermost :: (rev (removelast rest) ++ [innermost]).
Proof.
  intros Hne. cbn [rev].
  rewrite (app_removelast_last innermost Hne) at 1.
  now rewrite rev_app_distr.
Qed.

Lemma length_removelast (A : Type) (l : list A) :
  length (removelast l) = length l - 1.
Proof.
  induction l as [|x [|y l] IH]; [reflexivity | reflexivity |].
  change (removelast (x :: y :: l)) with (x :: removelast (y :: l)).
  cbn [length] in *. lia.
Qed.

(** X7. The call chain of two to four user frames lists every frame from
    the outermost inward, so that the innermost frame is shown twice: as the
    last numbered step and as the place of the crash.  With five frames or
    more the numbered steps are the three frames next to the outermost one,
    and the frames between them and the innermost one are left out. *)
Theorem call_chain_by_length (innermost : entry) (rest : list entry) (result : str) :
  rest <> [] ->
  (length rest <= 3 ->
   call_chain (innermost :: rest) result
   = Return (result
             ++ py "   1. " ++ entry_func (last rest innermost)
             ++ py " (started here)" ++ NL
             ++ chain_steps 2 (rev (removelast rest))
             ++ py "   " ++ str_of_int (N.of_nat (length rest + 1)) ++ py ". "
             ++ entry_func innermost ++ NL
             ++ py "   → " ++ entry_func innermost ++ py " (crashed here)" ++ NL))
  /\ (3 < length rest ->
      call_chain (innermost :: rest) result
      = Return (result
                ++ py "   1. " ++ entry_func (last rest innermost)
                ++ py " (started here)" ++ NL
                ++ chain_steps 2 (firstn 3 (rev (removelast rest)))
                ++ py "   → " ++ entry_func innermost ++ py " (crashed here)" ++ NL)).
Proof.
  intros Hne. rewrite call_chain_spec.
  destruct rest as [|second rest']; [contradiction|].
  rewrite (@chain_text_eq innermost second (last (second :: rest') innermost) rest'
             (rev (removelast (second :: rest')) ++ [innermost])
             (@rev_outermost innermost (second :: rest') Hne)).
  remember (second :: rest') as rest eqn:Hrest.
  assert (Hpos : 1 <= length rest) by (subst rest; cbn [length]; lia).
  assert (Hlen : length (rev (removelast rest)) = length rest - 1)
    by (now rewrite length_rev, length_removelast).
  split; intros H.
  - rewrite firstn_all2 by (rewrite length_app, Hlen; cbn [length]; lia).
    rewrite chain_steps_app, Hlen, <- !app_assoc.
    replace (2 + (length rest - 1)) with (length rest + 1) by lia.
    reflexivity.
  - rewrite firstn_app, Hlen.
    replace (3 - (length rest - 1)) with 0 by lia.
    cbn [firstn]. now rewrite app_nil_r.
Qed.

Lemma handled_is_exception (e : exception) :
  isinstance e Exception = false ->
  isinstance e TimeoutExpired = false /\ isinstance e FileNotFoundError = false.
Proof.
  destruct e as [c text]. destruct c; simpl; try discriminate; now split.
Qed.

Lemma run_gdb_raises
  (subprocess_run : list str -> option N -> str -> outcome completed_process)
  (cmd : list str) (timeout : option N) (e : exception) :
  run_gdb subprocess_run cmd timeout = Raise e ->
  subprocess_run (launch_command cmd) timeout canned_answer = Raise e
  /\ isinstance e Exception = false.
Proof.
  unfold run_gdb.
  destruct (subprocess_run (launch_command cmd) timeout canned_answer)
    as [result|e0]; cbn [bind try_except handle]; [discriminate|].
  destruct (isinstance e0 TimeoutExpired); [discriminate|].
  destruct (isinstance e0 FileNotFoundError); [discriminate|].
  destruct (isinstance e0 Exception) eqn:Hexc; [discriminate|].
  intros E. injection E as <-. now split.
Qed.

Lemma attach_gdb_raises
  (subprocess_run : list str -> option N -> str -> outcome completed_process)
  (pid : Z) (e : exception) :
  attach_gdb subprocess_run pid = Raise e ->
  subprocess_run (attach_command pid) None canned_answer = Raise e
  /\ isinstance e Exception = false.
Proof.
  unfold attach_gdb.
  destruct (subprocess_run (attach_command pid) None canned_answer)
    as [result|e0]; cbn [bind try_except handle]; [discriminate|].
  destruct (isinstance e0 FileNotFoundError); [discriminate|].
  destruct (isinstance e0 Exception) eqn:Hexc; [discriminate|].
  intros E. injection E as <-. now split.
Qed.

Lemma attach_gdb_propagates
  (subprocess_run : list str -> option N -> str -> outcome completed_process)
  (pid : Z) (e : exception) :
  subprocess_run (attach_command pid) None canned_answer = Raise e ->
  isinstance e Exception = false ->
  attach_gdb subprocess_run pid = Raise e.
Proof.
  intros H Hexc. unfold attach_gdb. rewrite H. cbn [bind try_except handle].
  destruct (@handled_is_exception e Hexc) as [_ ->]. now rewrite Hexc.
Qed.

(** X8. An exception leaves [run_gdb] or [attach_gdb] exactly when the run
    of the debugger raised it and it is no [Exception] (an interrupt from the
    keyboard, a [SystemExit]): whatever else the run raises is turned into a
    returned text. *)
Theorem invoker_raises_iff
  (subprocess_run : list str -> option N -> str -> outcome completed_process)
  (cmd : list str) (timeout : option N) (pid : Z) (e : exception) :
  (run_gdb subprocess_run cmd timeout = Raise e
   <-> subprocess_run (launch_command cmd) timeout canned_answer = Raise e
       /\ isinstance e Exception = false)
  /\ (attach_gdb subprocess_run pid = Raise e
      <-> subprocess_run (attach_command pid) None canned_answer = Raise e
          /\ isinstance e Exception = false).
Proof.
  split; split.
  - apply run_gdb_raises.
  - intros [H Hexc]. now apply run_gdb_propagates.
  - apply attach_gdb_raises.
  - intros [H Hexc]. now apply attach_gdb_propagates.
Qed.

(** X9. In attach mode the debugger runs without a time limit, and a
    failure of the run, an exception of class [Exception], is returned as a
    text: the request to install the debugger when it is missing, and for
    every other failure, a timeout included, the text that embeds the
    description of the failure. *)
Theorem attach_failure_sentinels
  (subprocess_run : list str -> option N -> str -> outcome completed_process)
  (pid : Z) (e : exception) :
  subprocess_run (attach_command pid) None canned_answer = Raise e ->
  isinstance e Exception = true ->
  attach_gdb subprocess_run pid
  = Return (if isinstance e FileNotFoundError then not_installed_message
            else attach_failed_message e).
Proof.
  intros H Hexc. unfold attach_gdb. rewrite H. cbn [bind try_except handle].
  destruct (isinstance e FileNotFoundError); [reflexivity|]. now rewrite Hexc.
Qed.

(** Where a run of one class ends and a text headed by a character outside
    another class begins. *)
Lemma run_boundary (P Q : char -> bool) (u u' v v' : str) :
  all_in P u -> all_in Q u' ->
  not_headed_by Q v -> not_headed_by P v' ->
  u ++ v = u' ++ v' -> u = u' /\ v = v'.
Proof.
  intros Hu; revert u'. induction Hu as [|c u Hc Hu IH]; intros u' Hu' Hv Hv' E.
  - destruct Hu' as [|c' u' Hc' Hu']; [now split|].
    cbn [app] in E. subst v. simpl in Hv. congruence.
  - destruct Hu' as [|c' u' Hc' Hu'].
    + cbn [app] in E. subst v'. simpl in Hv'. congruence.
    + cbn [app] in E. injection E as <- E.
      destruct (IH u' Hu' Hv Hv' E) as [-> ->]. now split.
Qed.

Lemma ascii_digit_cases (c : char) :
  ascii_digit c = true ->
  In c [48; 49; 50; 51; 52; 53; 54; 55; 56; 57]%N.
Proof.
  unfold ascii_digit. intros H. apply andb_true_iff in H. destruct H as [H0 H1].
  apply N.leb_le in H0. apply N.leb_le in H1.
  assert (Hc : exists k, (k < 10)%nat /\ c = N.of_nat (48 + k)).
  { exists (N.to_nat c - 48). split; lia. }
  destruct Hc as [k [Hk ->]].
  do 10 (destruct k as [|k]; [simpl; tauto|]). lia.
Qed.

Lemma ascii_blank_cases (c : char) :
  ascii_blank c = true -> In c [32; 9; 10; 11; 12; 13]%N.
Proof.
  unfold ascii_blank. intros H. apply orb_true_iff in H.
  destruct H as [H | H]; [apply N.eqb_eq in H; subst; simpl; tauto|].
  apply andb_true_iff in H. destruct H as [H0 H1].
  apply N.leb_le in H0. apply N.leb_le in H1.
  assert (Hc : exists k, (k < 5)%nat /\ c = N.of_nat (9 + k)).
  { exists (N.to_nat c - 9). split; lia. }
  destruct Hc as [k [Hk ->]].
  do 5 (destruct k as [|k]; [simpl; tauto|]). lia.
Qed.

Lemma ascii_blank_space (c : char) : ascii_blank c = true -> is_space c = true.
Proof.
  intros H. apply ascii_blank_cases in H. simpl in H.
  repeat (destruct H as [<- | H]; [reflexivity|]). contradiction.
Qed.

Lemma ascii_digit_no_space (c : char) : ascii_digit c = true -> is_space c = false.
Proof.
  intros H. apply ascii_digit_cases in H. simpl in H.
  repeat (destruct H as [<- | H]; [reflexivity|]). contradiction.
Qed.

Section Addressless.

Variable interp : interpreter.

Lemma ascii_digit_digit (c : char) :
  ascii_digit c = true -> is_digit interp c = true.
Proof.
  intros H. apply ascii_digit_cases in H. simpl in H.
  repeat (destruct H as [<- | H]; [reflexivity|]). contradiction.
Qed.

Lemma ascii_blank_no_digit (c : char) :
  ascii_blank c = true -> is_digit interp c = false.
Proof.
  intros H. apply ascii_blank_cases in H. simpl in H.
  repeat (destruct H as [<- | H]; [reflexivity|]). contradiction.
Qed.

Lemma space_no_ascii_digit (c : char) : is_space c = true -> ascii_digit c = false.
Proof.
  intros H. destruct (ascii_digit c) eqn:E; [|reflexivity].
  apply ascii_digit_no_space in E. congruence.
Qed.

(** X10. A frame line that gives the function name right after the ordinal,
    with neither an address nor the word "in" (as gdb prints the frame that
    stands at the beginning of a source line, most often frame 0), is not
    extracted, although it ends with "at", a path and a line number: no
    frame is matched at its marker, and the frames of the text are those of
    what follows the marker. *)
Theorem addressless_frame_not_extracted (num blanks rest : str) :
  addressless_line num blanks rest ->
  match_at (frame_pattern interp) (addressless_text num blanks rest) = None
  /\ extract_frames interp (addressless_text num blanks rest)
     = extract_frames interp (num ++ blanks ++ rest).
Proof.
  intros [[_ Hnum] [[Hbne Hblanks] [Hrest [Hx Hin]]]].
  assert (Hnone : match_at (frame_pattern interp)
                    (addressless_text num blanks rest) = None).
  { destruct (match_at _ _) as [[g left]|] eqn:Hm; [exfalso | reflexivity].
    apply match_at_sound in Hm. destruct Hm as [m [E Hm]].
    apply frame_match_shape in Hm. destruct Hm as [p [-> [Hwf _]]].
    destruct Hwf as [[_ Hpnum] [[Hsp1ne Hsp1] [Haddr [[Hsp2ne Hsp2] [[Hsp3ne Hsp3] _]]]]].
    destruct p as [pnum sp1 addr sp2 sp3 func params sp4 pargs sp5 sp6 file line].
    unfold addressless_text, frame_text in E.
    cbn [p_num p_sp1 p_addr p_sp2 p_sp3 p_func p_params p_sp4 p_args p_sp5 p_sp6
         p_file p_line] in *.
    rewrite <- ?app_assoc in E. apply app_inv_head in E.
    assert (Hspaces : all_in is_space blanks)
      by exact (@all_in_impl _ _ _ ascii_blank_space Hblanks).
    apply run_boundary with (P := ascii_digit) (Q := is_digit interp) in E;
      [| exact Hnum | exact Hpnum | |].
    - destruct E as [_ E].
      set (tail := func ++ params ++ sp4 ++ py "(" ++ pargs ++ py ")" ++ sp5
                   ++ py "at" ++ sp6 ++ file ++ py ":" ++ line ++ left) in *.
      destruct Haddr as [-> | [h [-> _]]].
      + assert (E1 : blanks ++ rest = (sp1 ++ sp2) ++ py "in" ++ sp3 ++ tail)
          by (rewrite E; cbn [app]; now rewrite <- !app_assoc).
        apply first_outside_unique with (cls := is_space) in E1;
          [| exact Hspaces | now apply all_in_app | exact Hrest | reflexivity ].
        destruct E1 as [_ E1]. apply Hin in E1.
        destruct sp3 as [|c sp3]; [contradiction|].
        inversion Hsp3 as [|? ? Hc _]; subst. simpl in E1. congruence.
      + assert (E1 : blanks ++ rest
                     = sp1 ++ py "0x" ++ h ++ sp2 ++ py "in" ++ sp3 ++ tail)
          by (rewrite E; now rewrite <- !app_assoc).
        apply first_outside_unique with (cls := is_space) in E1;
          [| exact Hspaces | exact Hsp1 | exact Hrest | reflexivity ].
        destruct E1 as [_ E1]. apply Hx. eexists. exact E1.
    - destruct blanks as [|b blanks]; [contradiction|].
      inversion Hblanks as [|? ? Hb _]; subst. simpl.
      now apply ascii_blank_no_digit.
    - destruct sp1 as [|c sp1]; [contradiction|].
      inversion Hsp1 as [|? ? Hc _]; subst. simpl.
      now apply space_no_ascii_digit. }
  split; [exact Hnone|].
  unfold extract_frames. f_equal.
  unfold addressless_text in *. change (py "#") with [35%N] in *.
  cbn [app] in *. now apply findall_skip.
Qed.

End Addressless.

(** ** The command line *)






Section CommandLineProperties.

Variable interp : interpreter.
Variable unicode_isdigit : char -> bool.
Variable m : machine.















End CommandLineProperties.

(** ** The prompts *)

Section PromptProperties.

Variable interp : interpreter.
Variable m : machine.




(** The loop that asks for a process id ends with a number only when an
    answer, stripped of blanks, reads as that number and the probe that
    followed accepted it; the probe is the last thing the loop asks of the
    machine. *)
Lemma ask_pid_returns (stdin : list (outcome str)) (w w' : world) (pid : Z) :
  ask_pid interp m stdin w = (w', Return pid) ->
  exists line t shown,
    In (Return line) stdin
    /\ int_of_text interp (strip line) = Return pid
    /\ kill_at m t pid = Return tt
    /\ clock w <= t /\ clock w' = S t
    /\ screen w' = screen w ++ shown.
Proof.
  revert w; induction stdin as [|answer stdin IH]; intros w H.
  - discriminate.
  - cbn [ask_pid] in H. cbv [io_bind io_try input] in H.
    assert (Hnext : forall w1 evs,
               clock w <= clock w1 ->
               screen w1 = screen w ++ evs ->
               ask_pid interp m stdin w1 = (w', Return pid) ->
               exists line t shown,
                 In (Return line) (answer :: stdin)
                 /\ int_of_text interp (strip line) = Return pid
                 /\ kill_at m t pid = Return tt
                 /\ clock w <= t /\ clock w' = S t
                 /\ screen w' = screen w ++ shown).
    { intros w1 evs Hclock Hscreen Hrec.
      destruct (IH w1 Hrec) as [line [t [shown [Hin [Hint [Hkill [Hle [Hend Hs]]]]]]]].
      exists line, t, (evs ++ shown).
      repeat split; try assumption; [now right | lia |].
      now rewrite Hs, Hscreen, app_assoc. }
    destruct w as [scr clk]. cbn [clock screen] in Hnext |- *.
    destruct answer as [line|e].
    + destruct (is_empty (strip line)) eqn:Hempty.
      * cbv [io_bind print io_return] in H. eapply Hnext in H; [exact H | |].
        -- cbn [show clock]. lia.
        -- cbn [show screen]. now rewrite <- app_assoc.
      * cbv [io_bind lift] in H.
        destruct (int_of_text interp (strip line)) as [pid0|e] eqn:Hint.
        -- cbv [io_try io_bind consult io_return show screen clock] in H.
           destruct (kill_at m clk pid0) as [[]|e] eqn:Hkill.
           ++ injection H as <- <-. exists line, clk, [Prompted pid_prompt].
              repeat split; try assumption; [now left | cbn [clock]; lia].
           ++ cbn [io_handle] in H.
              destruct (isinstance e OSError).
              ** cbv [io_bind print io_return] in H.
                 eapply Hnext in H; [exact H | |].
                 --- cbn [show clock]. lia.
                 --- cbn [show screen]. now rewrite <- app_assoc.
              ** cbv [lift] in H. cbn [io_handle] in H.
                 destruct (isinstance e ValueError); [|discriminate].
                 cbv [io_bind print io_return] in H.
                 eapply Hnext in H; [exact H | |].
                 --- cbn [show clock]. lia.
                 --- cbn [show screen]. now rewrite <- app_assoc.
        -- cbn [io_handle] in H.
           destruct (isinstance e ValueError); [|discriminate].
           cbv [io_bind print io_return] in H.
           eapply Hnext in H; [exact H | |].
           ++ cbn [show clock]. lia.
           ++ cbn [show screen]. now rewrite <- app_assoc.
    + cbn [io_handle] in H.
      destruct (isinstance e ValueError); [|discriminate].
      cbv [io_bind print io_return] in H.
      eapply Hnext in H; [exact H | |].
      * cbn [show clock]. lia.
      * cbn [show screen]. now rewrite <- app_assoc.
Qed.


(** X18. [attach_process] ends without an exception only when an answer,
    stripped of blanks, read as a number (zero and negative numbers
    included), the probe [os.kill(pid, 0)] that followed accepted it, and the
    debugger, attached to that number right after the probe, gave a text
    that the summarizer turned into a report; the screen then ends with the
    announcement of the attachment and the report between two bars. *)
Theorem attach_process_completes (stdin : list (outcome str)) (w w' : world) :
  attach_process interp m stdin w = (w', Return tt) ->
  exists line pid t output report shown,
    In (Return line) stdin
    /\ int_of_text interp (strip line) = Return pid
    /\ clock w <= t
    /\ kill_at m t pid = Return tt
    /\ attach_gdb (subprocess_run_at m (S t)) pid = Return output
    /\ parse_gdb_output interp output = Return report
    /\ clock w' = S (S t)
    /\ screen w'
       = screen w ++ shown
         ++ [ Printed (NL ++ py "🔗 Attaching to process " ++ str_of_pid pid
                       ++ py "...");
              Printed (NL ++ bar); Printed report; Printed bar ].
Proof.
  intros H. unfold attach_process in H. cbv [io_bind] in H.
  destruct (ask_pid interp m stdin w) as [w1 [pid|e]] eqn:Hask; [|discriminate].
  apply ask_pid_returns in Hask.
  destruct Hask as [line [t [shown [Hin [Hint [Hkill [Hle [Hclock Hscreen]]]]]]]].
  destruct w1 as [scr1 clk1]. cbn [clock screen] in Hclock, Hscreen. subst clk1.
  cbv [print attach_gdb_on consult lift show screen clock] in H.
  destruct (attach_gdb (subprocess_run_at m (S t)) pid) as [output|e] eqn:Hattach;
    [|discriminate].
  destruct (parse_gdb_output interp output) as [report|e] eqn:Hparse;
    [|discriminate].
  injection H as <-. exists line, pid, t, output, report, shown.
  repeat split; try assumption. cbn [screen]. rewrite Hscreen.
  now rewrite <- !app_assoc.
Qed.


Lemma split_nil_word (s : str) : is_empty s = true -> split s = [].
Proof. destruct s; [reflexivity | discriminate]. Qed.

(** The loop that asks for the program ends with a path only when an answer,
    stripped of blanks, is that path, and the machine, asked in this order,
    said that the path exists and that it may be executed. *)
Lemma ask_binary_path_returns (stdin rest : list (outcome str)) (w w' : world)
  (binary_path : str) :
  ask_binary_path m stdin w = (w', Return (binary_path, rest)) ->
  exists before line t shown,
    stdin = before ++ Return line :: rest
    /\ binary_path = strip line
    /\ binary_path <> []
    /\ path_exists_at m t binary_path = true
    /\ access_at m (S t) binary_path = Return true
    /\ clock w <= t /\ clock w' = S (S t)
    /\ screen w' = screen w ++ shown.
Proof.
  revert w; induction stdin as [|answer stdin IH]; intros w H.
  - discriminate.
  - cbn [ask_binary_path] in H. cbv [io_bind input] in H.
    assert (Hnext : forall w1 evs,
               clock w <= clock w1 ->
               screen w1 = screen w ++ evs ->
               ask_binary_path m stdin w1 = (w', Return (binary_path, rest)) ->
               exists before line t shown,
                 answer :: stdin = before ++ Return line :: rest
                 /\ binary_path = strip line
                 /\ binary_path <> []
                 /\ path_exists_at m t binary_path = true
                 /\ access_at m (S t) binary_path = Return true
                 /\ clock w <= t /\ clock w' = S (S t)
                 /\ screen w' = screen w ++ shown).
    { intros w1 evs Hclock Hscreen Hrec.
      destruct (IH w1 Hrec)
        as [before [line [t [shown [-> [Hp [Hne [Hex [Hacc [Hle [Hend Hs]]]]]]]]]]].
      exists (answer :: before), line, t, (evs ++ shown).
      repeat split; try assumption; [lia|].
      now rewrite Hs, Hscreen, app_assoc. }
    destruct w as [scr clk]. cbn [clock screen] in Hnext |- *.
    destruct answer as [line|e]; [|discriminate].
    destruct (is_empty (strip line)) eqn:Hempty.
    + cbv [io_bind print] in H. eapply Hnext in H; [exact H | |].
      * cbn [show clock]. lia.
      * cbn [show screen]. now rewrite <- app_assoc.
    + cbv [io_bind consult show screen clock] in H.
      destruct (path_exists_at m clk (strip line)) eqn:Hex; cbn [negb] in H.
      * destruct (access_at m (S clk) (strip line)) as [[|]|e] eqn:Hacc;
          cbn [negb] in H; [| |discriminate].
        -- cbv [io_return] in H. injection H as <- <- <-.
           exists [], line, clk, [Prompted path_prompt].
           repeat split; try assumption; try reflexivity;
             try (cbn [clock]; lia).
           intros E. rewrite E in Hempty. discriminate.
        -- cbv [io_bind print] in H. eapply Hnext in H; [exact H | |].
           ++ cbn [show clock]. lia.
           ++ cbn [show screen]. now rewrite <- app_assoc.
      * cbv [io_bind print] in H. eapply Hnext in H; [exact H | |].
        -- cbn [show clock]. lia.
        -- cbn [show screen]. now rewrite <- app_assoc.
Qed.

(** X20. [debug_binary] ends without an exception only when an answer,
    stripped of blanks, named a path that the machine then said exists and
    may be executed, the answer on a long-running program was neither "y" nor
    "Y", and the debugger, run with a limit of 30 seconds on the path
    followed by the blank-separated words of the answer on arguments, gave a
    text that the summarizer turned into a report; the screen then ends with
    the command line, the notice, and the report between two bars. *)
Theorem debug_binary_completes (stdin : list (outcome str)) (w w' : world) :
  debug_binary interp m stdin w = (w', Return tt) ->
  exists before path_line args_line long_line rest t output report shown,
    stdin = before ++ Return path_line :: Return args_line :: Return long_line :: rest
    /\ strip path_line <> []
    /\ clock w <= t
    /\ path_exists_at m t (strip path_line) = true
    /\ access_at m (S t) (strip path_line) = Return true
    /\ lower_is_y (strip long_line) = false
    /\ run_gdb (subprocess_run_at m (S (S t)))
         (strip path_line :: split (strip args_line)) (Some 30%N) = Return output
    /\ parse_gdb_output interp output = Return report
    /\ clock w' = S (S (S t))
    /\ screen w'
       = screen w ++ shown
         ++ [ Printed (NL ++ py "🚀 Running: "
                       ++ join (py " ") (strip path_line :: split (strip args_line)));
              Printed (py "⏳ This might take a moment...");
              Printed (NL ++ bar); Printed report; Printed bar ].
Proof.
  intros H. unfold debug_binary in H. cbv [io_bind] in H.
  destruct (ask_binary_path m stdin w) as [w1 [[binary_path stdin1]|e]] eqn:Hask;
    [|discriminate].
  apply ask_binary_path_returns in Hask.
  destruct Hask
    as [before [path_line [t [shown [-> [-> [Hne [Hex [Hacc [Hle [Hclock Hs]]]]]]]]]]].
  destruct w1 as [scr1 clk1]. cbn [clock screen] in Hclock, Hs. subst clk1.
  destruct stdin1 as [|[args_line|e] stdin2]; [discriminate | | discriminate].
  cbv [input_next io_bind input io_return show screen clock] in H.
  destruct stdin2 as [|[long_line|e] rest]; [discriminate | | discriminate].
  cbv [input_next io_bind input io_return show screen clock] in H.
  destruct (lower_is_y (strip long_line)) eqn:Hlong; [discriminate|].
  assert (Hargs : (if negb (is_empty (strip args_line))
                   then split (strip args_line) else [])
                  = split (strip args_line)).
  { destruct (is_empty (strip args_line)) eqn:E; [|reflexivity].
    cbn [negb]. symmetry. now apply split_nil_word. }
  rewrite Hargs in H. cbn [app] in H.
  cbv [print run_gdb_on consult lift show screen clock] in H.
  destruct (run_gdb (subprocess_run_at m (S (S t)))
              (strip path_line :: split (strip args_line)) (Some 30%N))
    as [output|e] eqn:Hrun; [|discriminate].
  destruct (parse_gdb_output interp output) as [report|e] eqn:Hparse;
    [|discriminate].
  injection H as <-.
  exists before, path_line, args_line, long_line, rest, t, output, report,
    (shown ++ [Prompted arguments_prompt; Prompted long_running_prompt]).
  repeat split; try assumption. cbn [screen]. rewrite Hs.
  now rewrite <- !app_assoc.
Qed.

(** X21. When the answer on a long-running program is "y" or "Y", blanks
    around it aside, [debug_binary] ends with [AttributeError] after the
    three questions, without running the debugger: the method that the
    long-running mode calls does not exist. *)
Theorem debug_binary_long_running (stdin rest : list (outcome str)) (w w1 : world)
  (binary_path args_line long_line : str) :
  ask_binary_path m stdin w
  = (w1, Return (binary_path, Return args_line :: Return long_line :: rest)) ->
  lower_is_y (strip long_line) = true ->
  exists e,
    debug_binary interp m stdin w
    = (mk_world (screen w1 ++ [Prompted arguments_prompt; Prompted long_running_prompt])
         (clock w1),
       Raise e)
    /\ exc_type e = OtherError (py "AttributeError").
Proof.
  intros Hask Hlong. unfold debug_binary. cbv [io_bind]. rewrite Hask.
  destruct w1 as [scr1 clk1].
  cbv [input_next io_bind input io_return show screen clock].
  rewrite Hlong. cbv [monitor_long_running_process lift].
  eexists. split.
  - now rewrite <- app_assoc.
  - reflexivity.
Qed.

End PromptProperties.

(** ** Words and the menu *)

Lemma split_from_words (s acc : str) :
  all_in no_space acc -> Forall word (split_from s acc).
Proof.
  revert acc; induction s as [|c s IH]; intros acc Hacc; cbn [split_from].
  - destruct acc as [|a acc]; cbn [is_empty]; [constructor|].
    constructor; [split; [discriminate | exact Hacc] | constructor].
  - destruct (is_space c) eqn:Hc.
    + destruct acc as [|a acc]; cbn [is_empty]; [apply IH; constructor|].
      constructor; [split; [discriminate | exact Hacc] | apply IH; constructor].
    + apply IH. apply all_in_app; [exact Hacc|].
      constructor; [unfold no_space; now rewrite Hc | constructor].
Qed.

Lemma split_from_concat (s acc : str) :
  concat (split_from s acc) = acc ++ filter no_space s.
Proof.
  revert acc; induction s as [|c s IH]; intros acc; cbn [split_from filter].
  - destruct acc as [|a acc]; cbn [is_empty concat]; [reflexivity|].
    now rewrite !app_nil_r.
  - unfold no_space at 1. destruct (is_space c) eqn:Hc; cbn [negb].
    + destruct acc as [|a acc]; cbn [is_empty concat]; [apply IH|].
      now rewrite IH.
    + rewrite IH, <- app_assoc. reflexivity.
Qed.

Lemma split_from_word (x rest acc : str) :
  all_in no_space x -> split_from (x ++ rest) acc = split_from rest (acc ++ x).
Proof.
  intros Hx; revert acc; induction Hx as [|c x Hc Hx IH]; intros acc.
  - now rewrite app_nil_r.
  - cbn [app split_from]. unfold no_space in Hc.
    destruct (is_space c); [discriminate|].
    rewrite IH, <- app_assoc. reflexivity.
Qed.

Lemma split_join (ws : list str) :
  Forall word ws -> split (join (py " ") ws) = ws.
Proof.
  unfold split. induction 1 as [|x ws [Hne Hx] Hws IH]; [reflexivity|].
  destruct ws as [|y ws].
  - cbn [join]. rewrite <- (app_nil_r x) at 1.
    rewrite (@split_from_word x [] [] Hx). cbn [app split_from].
    destruct x; [contradiction | reflexivity].
  - change (join (py " ") (x :: y :: ws))
      with (x ++ 32%N :: join (py " ") (y :: ws)).
    rewrite (@split_from_word x _ [] Hx). cbn [app split_from].
    change (is_space 32%N) with true. cbv iota.
    destruct x; [contradiction|]. cbn [is_empty]. now rewrite IH.
Qed.

(** X22. The arguments that [debug_binary] takes from an answer are its
    words: each is non-empty and free of whitespace (so quotes do not keep
    the parts of an argument together), nothing but whitespace is lost
    between them, and the words joined by single blanks, as the command line
    is shown before the run, split into the same words again. *)
Theorem split_gives_words (s : str) :
  Forall word (split s)
  /\ concat (split s) = filter no_space s
  /\ split (join (py " ") (split s)) = split s.
Proof.
  assert (Hwords : Forall word (split s)) by (apply split_from_words; constructor).
  split; [exact Hwords|]. split.
  - apply (split_from_concat s []).
  - now apply split_join.
Qed.

Section MenuProperties.

Variable interp : interpreter.
Variable m : machine.



End MenuProperties.

(** ** Instances of the further properties *)

(** X1 on the line that gdb prints for a normal exit. *)
Lemma no_crash_report_iff_witness :
  normal_exit_input <> []
  /\ signal_free normal_exit_input
  /\ ~ substring_of (py "exited with code") normal_exit_input
  /\ parse_gdb_output plain_interpreter normal_exit_input = Return no_crash_message.
Proof.
  assert (Hne : normal_exit_input <> [])
    by (intros E; vm_compute in E; discriminate E).
  assert (Hfree : signal_free normal_exit_input)
    by (apply detect_signal_free; vm_compute; reflexivity).
  assert (Hnot : ~ substring_of (py "exited with code") normal_exit_input)
    by (apply contains_false; vm_compute; reflexivity).
  split; [exact Hne | split; [exact Hfree | split; [exact Hnot|]]].
  exact (proj2 (@no_crash_report_iff plain_interpreter normal_exit_input Hne Hfree)
           Hnot).
Defined.

(** X2 on the exit line that gdb prints for status 1. *)
Lemma first_exit_code_nonzero_witness :
  signal_free octal_exit_input
  /\ first_exit_digits (is_digit plain_interpreter) octal_exit_input (py "01")
  /\ int plain_interpreter (py "01") = Return 1%N
  /\ parse_gdb_output plain_interpreter octal_exit_input
     = Return (error_exit_message 1).
Proof.
  assert (Hfree : signal_free octal_exit_input)
    by (apply detect_signal_free; vm_compute; reflexivity).
  assert (Hfirst : first_exit_digits (is_digit plain_interpreter) octal_exit_input
                     (py "01"))
    by (apply search_exit_first_inv; vm_compute; reflexivity).
  assert (Hone : int plain_interpreter (py "01") = Return 1%N)
    by (vm_compute; reflexivity).
  split; [exact Hfree | split; [exact Hfirst | split; [exact Hone|]]].
  refine (@first_exit_code_nonzero plain_interpreter octal_exit_input (py "01") 1%N
            Hfree Hfirst Hone _).
  discriminate.
Defined.

(** X3 on an exit code of 4301 digits, under the default limit of 4300. *)
Lemma oversized_exit_code_raises_witness :
  signal_free long_exit_input
  /\ first_exit_digits (is_digit plain_interpreter) long_exit_input long_exit_code
  /\ (0 < int_max_str_digits plain_interpreter)%N
  /\ (int_max_str_digits plain_interpreter < N.of_nat (length long_exit_code))%N
  /\ exists e,
       parse_gdb_output plain_interpreter long_exit_input = Raise e
       /\ exc_type e = ValueError.
Proof.
  assert (Hfree : signal_free long_exit_input)
    by (apply detect_signal_free; vm_compute; reflexivity).
  assert (Hfirst : first_exit_digits (is_digit plain_interpreter) long_exit_input
                     long_exit_code)
    by (apply search_exit_first_inv; vm_compute; reflexivity).
  assert (H0 : (0 < int_max_str_digits plain_interpreter)%N)
    by (vm_compute; reflexivity).
  assert (H1 : (int_max_str_digits plain_interpreter
                < N.of_nat (length long_exit_code))%N)
    by (vm_compute; reflexivity).
  split; [exact Hfree | split; [exact Hfirst | split; [exact H0 | split; [exact H1|]]]].
  exact (@oversized_exit_code_raises plain_interpreter long_exit_input long_exit_code
           Hfree Hfirst H0 H1).
Defined.

(** X4 on the text of the end-to-end example. *)
Lemma parse_gdb_output_returns_witness :
  within_int_limit plain_interpreter example_input
  /\ exists report, parse_gdb_output plain_interpreter example_input = Return report.
Proof.
  assert (Hlimit : within_int_limit plain_interpreter example_input)
    by (right; vm_compute; discriminate).
  split; [exact Hlimit|].
  exact (@parse_gdb_output_returns plain_interpreter example_input Hlimit).
Defined.

(** X5 on the same exit code of 4301 digits. *)
Lemma summarizer_raises_only_over_limit_witness :
  parse_gdb_output plain_interpreter long_exit_input
  = Raise (mk_exception ValueError
             (py "Exceeds the limit for integer string conversion"))
  /\ signal_free long_exit_input
  /\ exists ds,
       first_exit_digits (is_digit plain_interpreter) long_exit_input ds
       /\ (0 < int_max_str_digits plain_interpreter)%N
       /\ (int_max_str_digits plain_interpreter < N.of_nat (length ds))%N.
Proof.
  assert (Hraise : parse_gdb_output plain_interpreter long_exit_input
                   = Raise (mk_exception ValueError
                              (py "Exceeds the limit for integer string conversion")))
    by (vm_compute; reflexivity).
  split; [exact Hraise|].
  exact (proj2 (@summarizer_raises_only_over_limit plain_interpreter long_exit_input
                  _ Hraise)).
Defined.

(** X6 on a crash whose only frame comes without an address: the report
    advises to compile with debug information, which the program has. *)
Lemma no_frames_report_witness :
  detect_signal FRIENDLY_SIGNALS addressless_input = Some (py "SIGSEGV")
  /\ extract_frames plain_interpreter addressless_input = []
  /\ parse_gdb_output plain_interpreter addressless_input
     = Return (header (py "SIGSEGV") ++ no_frames_block ++ quick_tips).
Proof.
  assert (Hsig : detect_signal FRIENDLY_SIGNALS addressless_input
                 = Some (py "SIGSEGV")) by (vm_compute; reflexivity).
  assert (Hnone : extract_frames plain_interpreter addressless_input = [])
    by (vm_compute; reflexivity).
  split; [exact Hsig | split; [exact Hnone|]].
  exact (@no_frames_report plain_interpreter addressless_input (py "SIGSEGV")
           Hsig Hnone).
Defined.

(** X7 on the two user frames of the end-to-end example, and on five. *)
Lemma call_chain_by_length_witness :
  call_chain [ (py "0", py "crash_func", py "/home/user/app.c", py "10");
               (py "1", py "main", py "/home/user/app.c", py "15") ] []
  = Return (py "   1. main (started here)" ++ NL
            ++ py "   2. crash_func" ++ NL
            ++ py "   → crash_func (crashed here)" ++ NL)
  /\ call_chain five_user_frames []
     = Return (py "   1. main (started here)" ++ NL
               ++ py "   2. outer" ++ NL
               ++ py "   3. middle" ++ NL
               ++ py "   4. inner" ++ NL
               ++ py "   → leaf (crashed here)" ++ NL).
Proof.
  split.
  - refine (eq_trans
              (proj1 (@call_chain_by_length
                        (py "0", py "crash_func", py "/home/user/app.c", py "10")
                        [ (py "1", py "main", py "/home/user/app.c", py "15") ] [] _) _)
              _).
    + discriminate.
    + cbn [length]. lia.
    + vm_compute. reflexivity.
  - refine (eq_trans
              (proj2 (@call_chain_by_length
                        (py "0", py "leaf", py "app.c", py "3")
                        (tl five_user_frames) [] _) _)
              _).
    + discriminate.
    + cbn [length tl five_user_frames]. lia.
    + vm_compute. reflexivity.
Defined.

(** X9 on a machine on which the debugger may not be executed. *)
Lemma attach_failure_sentinels_witness :
  debugger_forbidden (attach_command 4242) None canned_answer
  = Raise (mk_exception PermissionError (py "[Errno 13] Permission denied: 'gdb'"))
  /\ attach_gdb debugger_forbidden 4242
     = Return (py "❌ Whoops! Failed to attach GDB: [Errno 13] Permission denied: 'gdb'").
Proof.
  split; [reflexivity|].
  refine (eq_trans
            (@attach_failure_sentinels debugger_forbidden 4242 _ eq_refl eq_refl) _).
  vm_compute. reflexivity.
Defined.

(** X10 on the line of a frame 0 that stands at the beginning of line 5. *)
Lemma addressless_frame_not_extracted_witness :
  addressless_line (py "0") (py "  ") addressless_rest
  /\ match_at (frame_pattern plain_interpreter)
       (addressless_text (py "0") (py "  ") addressless_rest) = None
  /\ extract_frames plain_interpreter
       (addressless_text (py "0") (py "  ") addressless_rest)
     = extract_frames plain_interpreter (py "0" ++ py "  " ++ addressless_rest).
Proof.
  assert (Hline : addressless_line (py "0") (py "  ") addressless_rest).
  { unfold addressless_line.
    split; [split; [intros E; vm_compute in E; discriminate E
                   | apply all_in_forallb; vm_compute; reflexivity]|].
    split; [split; [intros E; vm_compute in E; discriminate E
                   | apply all_in_forallb; vm_compute; reflexivity]|].
    split; [vm_compute; reflexivity|].
    split; [apply startswith_false; vm_compute; reflexivity|].
    intros r E. vm_compute in E. discriminate E. }
  split; [exact Hline|].
  exact (@addressless_frame_not_extracted plain_interpreter _ _ _ Hline).
Defined.






(** X18 on an answer that is no number, followed by the number of the one
    process of the machine. *)
Lemma attach_process_completes_witness :
  attach_process plain_interpreter
    (machine_with (debugger_writes normal_exit_input))
    [Return (py "a.out"); Return (py " 4242 ")] start
  = (mk_world
       [ Prompted pid_prompt; Printed (py "❌ Please enter a valid number");
         Prompted pid_prompt;
         Printed (NL ++ py "🔗 Attaching to process 4242...");
         Printed (NL ++ bar); Printed no_crash_message; Printed bar ]
       2,
     Return tt)
  /\ exists line pid t output report shown,
       In (Return line) [Return (py "a.out"); Return (py " 4242 ")]
       /\ int_of_text plain_interpreter (strip line) = Return pid
       /\ clock start <= t
       /\ kill_at (machine_with (debugger_writes normal_exit_input)) t pid = Return tt
       /\ attach_gdb
            (subprocess_run_at (machine_with (debugger_writes normal_exit_input)) (S t))
            pid = Return output
       /\ parse_gdb_output plain_interpreter output = Return report
       /\ 2 = S (S t)
       /\ [ Prompted pid_prompt; Printed (py "❌ Please enter a valid number");
            Prompted pid_prompt;
            Printed (NL ++ py "🔗 Attaching to process 4242...");
            Printed (NL ++ bar); Printed no_crash_message; Printed bar ]
          = screen start ++ shown
            ++ [ Printed (NL ++ py "🔗 Attaching to process " ++ str_of_pid pid
                          ++ py "...");
                 Printed (NL ++ bar); Printed report; Printed bar ].
Proof.
  assert (Hrun : attach_process plain_interpreter
                   (machine_with (debugger_writes normal_exit_input))
                   [Return (py "a.out"); Return (py " 4242 ")] start
                 = (mk_world
                      [ Prompted pid_prompt;
                        Printed (py "❌ Please enter a valid number");
                        Prompted pid_prompt;
                        Printed (NL ++ py "🔗 Attaching to process 4242...");
                        Printed (NL ++ bar); Printed no_crash_message; Printed bar ]
                      2,
                    Return tt))
    by (vm_compute; reflexivity).
  split; [exact Hrun|].
  exact (@attach_process_completes plain_interpreter
           (machine_with (debugger_writes normal_exit_input)) _ _ _ Hrun).
Defined.


(** X20 on an empty answer, a path that does not exist, the program of the
    machine, an argument in quotes, and the answer "n". *)
Lemma debug_binary_completes_witness :
  debug_binary plain_interpreter (machine_with (debugger_writes octal_exit_input))
    [ Return []; Return (py "./b.out"); Return (py " ./a.out ");
      Return (py "--name 'my file'"); Return (py "n") ] start
  = (mk_world
       [ Prompted path_prompt; Printed (py "❌ Please provide a path");
         Prompted path_prompt; Printed (py "❌ File './b.out' doesn't exist");
         Prompted path_prompt;
         Prompted arguments_prompt; Prompted long_running_prompt;
         Printed (NL ++ py "🚀 Running: ./a.out --name 'my file'");
         Printed (py "⏳ This might take a moment...");
         Printed (NL ++ bar); Printed (error_exit_message 1); Printed bar ]
       4,
     Return tt)
  /\ exists before path_line args_line long_line rest t output report shown,
       [ Return []; Return (py "./b.out"); Return (py " ./a.out ");
         Return (py "--name 'my file'"); Return (py "n") ]
       = before ++ Return path_line :: Return args_line :: Return long_line :: rest
       /\ strip path_line <> []
       /\ clock start <= t
       /\ path_exists_at (machine_with (debugger_writes octal_exit_input)) t
            (strip path_line) = true
       /\ access_at (machine_with (debugger_writes octal_exit_input)) (S t)
            (strip path_line) = Return true
       /\ lower_is_y (strip long_line) = false
       /\ run_gdb
            (subprocess_run_at (machine_with (debugger_writes octal_exit_input))
               (S (S t)))
            (strip path_line :: split (strip args_line)) (Some 30%N) = Return output
       /\ parse_gdb_output plain_interpreter output = Return report
       /\ 4 = S (S (S t))
       /\ [ Prompted path_prompt; Printed (py "❌ Please provide a path");
            Prompted path_prompt; Printed (py "❌ File './b.out' doesn't exist");
            Prompted path_prompt;
            Prompted arguments_prompt; Prompted long_running_prompt;
            Printed (NL ++ py "🚀 Running: ./a.out --name 'my file'");
            Printed (py "⏳ This might take a moment...");
            Printed (NL ++ bar); Printed (error_exit_message 1); Printed bar ]
          = screen start ++ shown
            ++ [ Printed (NL ++ py "🚀 Running: "
                          ++ join (py " ") (strip path_line :: split (strip args_line)));
                 Printed (py "⏳ This might take a moment...");
                 Printed (NL ++ bar); Printed report; Printed bar ].
Proof.
  assert (Hrun : debug_binary plain_interpreter
                   (machine_with (debugger_writes octal_exit_input))
                   [ Return []; Return (py "./b.out"); Return (py " ./a.out ");
                     Return (py "--name 'my file'"); Return (py "n") ] start
                 = (mk_world
                      [ Prompted path_prompt; Printed (py "❌ Please provide a path");
                        Prompted path_prompt;
                        Printed (py "❌ File './b.out' doesn't exist");
                        Prompted path_prompt;
                        Prompted arguments_prompt; Prompted long_running_prompt;
                        Printed (NL ++ py "🚀 Running: ./a.out --name 'my file'");
                        Printed (py "⏳ This might take a moment...");
                        Printed (NL ++ bar); Printed (error_exit_message 1);
                        Printed bar ]
                      4,
                    Return tt))
    by (vm_compute; reflexivity).
  split; [exact Hrun|].
  exact (@debug_binary_completes plain_interpreter
           (machine_with (debugger_writes octal_exit_input)) _ _ _ Hrun).
Defined.

(** X21 on the answer "Y" for the program of the machine. *)
Lemma debug_binary_long_running_witness :
  ask_binary_path (machine_with debugger_missing)
    [Return (py "./a.out"); Return []; Return (py " Y ")] start
  = (mk_world [Prompted path_prompt] 2,
     Return (py "./a.out", [Return []; Return (py " Y ")]))
  /\ lower_is_y (strip (py " Y ")) = true
  /\ exists e,
       debug_binary plain_interpreter (machine_with debugger_missing)
         [Return (py "./a.out"); Return []; Return (py " Y ")] start
       = (mk_world
            ([Prompted path_prompt]
             ++ [Prompted arguments_prompt; Prompted long_running_prompt]) 2,
          Raise e)
       /\ exc_type e = OtherError (py "AttributeError").
Proof.
  assert (Hask : ask_binary_path (machine_with debugger_missing)
                   [Return (py "./a.out"); Return []; Return (py " Y ")] start
                 = (mk_world [Prompted path_prompt] 2,
                    Return (py "./a.out", [Return []; Return (py " Y ")])))
    by (vm_compute; reflexivity).
  assert (Hlong : lower_is_y (strip (py " Y ")) = true) by (vm_compute; reflexivity).
  split; [exact Hask | split; [exact Hlong|]].
  exact (@debug_binary_long_running plain_interpreter (machine_with debugger_missing)
           _ _ _ _ _ _ _ Hask Hlong).
Defined.



